(** * saba-docker-io: the attach bridge of the Docker extension

    A shallow embedding of [docker/saba-docker-io/main.go].  The bridge is a
    straight-line program whose whole behaviour is the sequence of operating
    system services it requests, so [main] is embedded as a tree of requests
    (a free monad over the services the Go code calls), and run against an
    arbitrary operating system given as a family of state-passing handlers.
    A run yields the trace of requests with their answers and the way the
    process ended. *)

From Stdlib Require Import String Ascii List ZArith Lia Bool Arith.
From ExtLib Require Import Structures.Monad.
Import ListNotations.
Import MonadNotation.
Local Open Scope string_scope.
Local Open Scope list_scope.
Local Open Scope monad_scope.

Set Implicit Arguments.

(** ** The Go values the program handles *)

(** A Go [error]: [None] is [nil], [Some msg] an error whose [Error()] text
    is [msg]. *)
Definition error := option string.

(** The three standard streams of the bridge process. *)
Inductive File : Type := os_Stdin | os_Stdout | os_Stderr.

Definition File_eqb (f g : File) : bool :=
  match f, g with
  | os_Stdin, os_Stdin | os_Stdout, os_Stdout | os_Stderr, os_Stderr => true
  | _, _ => false
  end.

(** [exec.Cmd], with the fields the program sets or leaves at their zero
    value.  A stream left [None] (Go's nil) is connected to the null
    device. *)
Record Cmd : Type := mkCmd {
  Path : string;
  Args : list string;
  Stdin : option File;
  Stdout : option File;
  Stderr : option File
}.

(** [exec.Command(name, arg...)]: the argument vector starts with the
    command name itself.  The lookup of a bare [name] that Go performs here
    is left to the handler of [Start], which reports its failure. *)
Definition Command (name : string) (arg : list string) : Cmd :=
  {| Path := name; Args := name :: arg;
     Stdin := None; Stdout := None; Stderr := None |}.

Definition set_Stdout (c : Cmd) (f : File) : Cmd :=
  {| Path := Path c; Args := Args c;
     Stdin := Stdin c; Stdout := Some f; Stderr := Stderr c |}.

Definition set_Stderr (c : Cmd) (f : File) : Cmd :=
  {| Path := Path c; Args := Args c;
     Stdin := Stdin c; Stdout := Stdout c; Stderr := Some f |}.

(** ** Requests to the operating system *)

(** One constructor per service used by [main]; the index is the type of
    the answer.  [Exit] and [Panic] have no answer, and [Exec] answers only
    when the image transfer failed. *)
Inductive Sys : Type -> Type :=
| Write (f : File) (s : string) : Sys unit
| Exit (code : Z) : Sys Empty_set
| Panic : Sys Empty_set
| Start (c : Cmd) : Sys error
| Wait (c : Cmd) : Sys error
| LookPath (file : string) : Sys (string * error)
| Environ : Sys (list string)
| Exec (argv0 : string) (argv envv : list string) : Sys error.

(** Programs: a finished computation or a request with its continuation. *)
Inductive Proc (A : Type) : Type :=
| Ret (a : A)
| Vis (X : Type) (e : Sys X) (k : X -> Proc A).

Arguments Ret {A} a.
Arguments Vis {A X} e k.

Fixpoint Proc_bind {A B : Type} (p : Proc A) (f : A -> Proc B) : Proc B :=
  match p with
  | Ret a => f a
  | Vis e k => Vis e (fun x => Proc_bind (k x) f)
  end.

#[export] Instance Monad_Proc : Monad Proc :=
  {| ret := @Ret; bind := @Proc_bind |}.

Definition call {X : Type} (e : Sys X) : Proc X := Vis e (fun x => Ret x).

Definition halt {A : Type} (e : Sys Empty_set) : Proc A :=
  Vis e (fun x : Empty_set => match x with end).

(** ** The pieces of the Go library the program uses *)

Definition newline : string := String (ascii_of_nat 10) EmptyString.

(** [fmt.Sprintf] restricted to the verbs [%s] and [%v] applied to strings
    (an error is printed through its [Error()] text). *)
Fixpoint Sprintf (format : string) (a : list string) : string :=
  match format with
  | EmptyString => EmptyString
  | String c rest =>
      match rest with
      | String v rest' =>
          if (Ascii.eqb c "%" && (Ascii.eqb v "s" || Ascii.eqb v "v"))%bool
          then match a with
               | x :: a' => x ++ Sprintf rest' a'
               | [] => "%!" ++ String v "(MISSING)" ++ Sprintf rest' []
               end
          else String c (Sprintf rest a)
      | EmptyString => String c EmptyString
      end
  end.

Definition Fprintln (f : File) (s : string) : Proc unit :=
  call (Write f (s ++ newline)).

Definition Fprintf (f : File) (format : string) (a : list string) : Proc unit :=
  call (Write f (Sprintf format a)).

Definition os_Exit {A : Type} (code : Z) : Proc A := halt (Exit code).

(** Indexing a slice panics out of range. *)
Definition index (l : list string) (i : nat) : Proc string :=
  match nth_error l i with
  | Some x => ret x
  | None => halt Panic
  end.

(** [Cmd.Run]: start the command, then wait for it to exit. *)
Definition Run (c : Cmd) : Proc error :=
  err <- call (Start c) ;;
  match err with
  | Some e => ret (Some e)
  | None => call (Wait c)
  end.

(** ** The program *)

Definition defaultDocker : string := "/opt/saba-chan/docker/docker".
Definition initialLogTail : string := "200".

Definition main (os_Args : list string) : Proc unit :=
  if (length os_Args <? 2)%nat then
    Fprintln os_Stderr "Usage: saba-docker-io <container_name> [docker_path]" ;;
    os_Exit 1
  else
    container <- index os_Args 1 ;;
    docker <- (if (3 <=? length os_Args)%nat
               then index os_Args 2
               else ret defaultDocker) ;;
    (* Phase 1: fetch recent log history; the result of Run is dropped *)
    let logs := Command docker
                  ["logs"; "--tail"; initialLogTail; "--timestamps"; container] in
    let logs := set_Stdout logs os_Stdout in
    let logs := set_Stderr logs os_Stdout in
    _ <- Run logs ;;
    (* Phase 2: exec into docker attach *)
    r <- call (LookPath docker) ;;
    let '(dockerPath, err) := r in
    match err with
    | Some e =>
        Fprintf os_Stderr
          ("[saba-docker-io] docker not found at %s: %v" ++ newline)
          [docker; e] ;;
        os_Exit 2
    | None =>
        let argv := [docker; "attach"; "--sig-proxy=false"; container] in
        envv <- call Environ ;;
        err <- call (Exec dockerPath argv envv) ;;
        match err with
        | Some e =>
            Fprintf os_Stderr
              ("[saba-docker-io] exec failed: %v" ++ newline) [e] ;;
            os_Exit 3
        | None => ret tt
        end
    end.

(** ** Running a program against an operating system *)

(** The two output streams of a child process, as the child sees them. *)
Inductive ChildStream : Type := child_stdout | child_stderr.

(** An operating system over a world state [W]: what each service answers,
    and how it changes the world.  Nothing is assumed about the answers.
    [os_wait] also gives what the child wrote before it exited, in order;
    [os_exec] answers [None] when the image was replaced and [Some msg]
    when the transfer failed with error [msg]. *)
Record OS (W : Type) : Type := mkOS {
  os_start : Cmd -> W -> error * W;
  os_wait : Cmd -> W -> list (ChildStream * string) * error * W;
  os_lookPath : string -> W -> (string * error) * W;
  os_exec : string -> list string -> list string -> W -> option string * W
}.

(** What an observer of the process sees, in order. *)
Inductive Event : Type :=
| EvWrite (f : File) (s : string)
| EvStart (c : Cmd) (r : error)
| EvChild (f : File) (s : string)
| EvWait (c : Cmd) (r : error)
| EvLookPath (file : string) (r : string * error)
| EvEnviron (r : list string)
| EvExec (argv0 : string) (argv envv : list string) (r : option string).

(** How the bridge's own code stops running. *)
Inductive Outcome : Type :=
| Exited (code : Z)
| Panicked
| Replaced (argv0 : string) (argv envv : list string).

Inductive Reply (X : Type) : Type :=
| Answer (x : X)
| Stop (o : Outcome).

Arguments Answer {X} x.
Arguments Stop {X} o.

(** The state of a run: the environment of the bridge process, which no
    request of [Sys] can change, and the world outside. *)
Record State (W : Type) : Type := mkState {
  proc_env : list string;
  world : W
}.

(** Where a chunk written by the child of [c] lands in the bridge's
    streams: on the file the matching field of [c] names, or nowhere. *)
Definition route (c : Cmd) (o : ChildStream * string) : list Event :=
  match (match fst o with
         | child_stdout => Stdout c
         | child_stderr => Stderr c
         end) with
  | Some f => [EvChild f (snd o)]
  | None => []
  end.

Section Semantics.

Variable W : Type.
Variable os : OS W.

Definition handle (X : Type) (e : Sys X) (st : State W)
  : list Event * Reply X * State W :=
  let env := proc_env st in
  let w := world st in
  match e in Sys T return list Event * Reply T * State W with
  | Write f s => ([EvWrite f s], Answer tt, st)
  | Exit code => ([], Stop (Exited code), st)
  | Panic => ([], Stop Panicked, st)
  | Start c =>
      let '(r, w') := os_start os c w in
      ([EvStart c r], Answer r, mkState env w')
  | Wait c =>
      let '(out, r, w') := os_wait os c w in
      (flat_map (route c) out ++ [EvWait c r], Answer r, mkState env w')
  | LookPath file =>
      let '(r, w') := os_lookPath os file w in
      ([EvLookPath file r], Answer r, mkState env w')
  | Environ => ([EvEnviron env], Answer env, st)
  | Exec argv0 argv envv =>
      let '(r, w') := os_exec os argv0 argv envv w in
      ([EvExec argv0 argv envv r],
       match r with
       | None => Stop (Replaced argv0 argv envv)
       | Some msg => Answer (Some msg)
       end,
       mkState env w')
  end.

Fixpoint run (A : Type) (p : Proc A) (st : State W)
  : list Event * (Outcome + A * State W) :=
  match p with
  | Ret a => ([], inr (a, st))
  | Vis e k =>
      let '(evs, r, st') := handle e st in
      match r with
      | Answer x => let '(t, res) := run (k x) st' in (evs ++ t, res)
      | Stop o => (evs, inl o)
      end
  end.

(** A whole run of the bridge.  When [main] returns, the Go runtime exits
    with status 0. *)
Definition run_main (os_Args : list string) (st : State W)
  : list Event * Outcome :=
  let '(t, res) := run (main os_Args) st in
  (t, match res with inl o => o | inr _ => Exited 0 end).

Definition trace (os_Args : list string) (st : State W) : list Event :=
  fst (run_main os_Args st).

Definition outcome (os_Args : list string) (st : State W) : Outcome :=
  snd (run_main os_Args st).

End Semantics.

(** ** Reading traces *)

(** Events of the Replay Stage: the log subprocess and its output. *)
Definition is_replay (e : Event) : bool :=
  match e with
  | EvStart _ _ | EvChild _ _ | EvWait _ _ => true
  | _ => false
  end.

(** Events of the Live Relay Stage proper: resolution and image transfer. *)
Definition is_relay (e : Event) : bool :=
  match e with
  | EvLookPath _ _ | EvEnviron _ | EvExec _ _ _ _ => true
  | _ => false
  end.

Definition is_start (e : Event) : bool :=
  match e with EvStart _ _ => true | _ => false end.

Definition is_exec (e : Event) : bool :=
  match e with EvExec _ _ _ _ => true | _ => false end.


Definition count (p : Event -> bool) (t : list Event) : nat :=
  length (filter p t).

(** The chunks that reach stream [f] of the bridge, whoever wrote them. *)
Definition written (f : File) (t : list Event) : list string :=
  flat_map (fun e =>
              match e with
              | EvWrite g s | EvChild g s => if File_eqb f g then [s] else []
              | _ => []
              end) t.

(** The Replay Stage has run to its end: either the subprocess could not
    be started, or it was started, produced its output and was waited for
    until it exited. *)
Definition replay_finished (t : list Event) : Prop :=
  (exists c e, t = [EvStart c (Some e)]) \/
  (exists c out r,
      t = EvStart c None :: out ++ [EvWait c r] /\
      forall e, In e out -> exists f s, e = EvChild f s).

(** The event [e] names the runtime [d] where it names one: as the command
    of the log subprocess, as the file looked up, as the first element of
    the argument vector of the image transfer. *)
Definition names_runtime (d : string) (e : Event) : Prop :=
  match e with
  | EvStart c _ | EvWait c _ => Path c = d /\ hd_error (Args c) = Some d
  | EvLookPath f _ => f = d
  | EvExec _ argv _ _ => hd_error argv = Some d
  | _ => True
  end.

(** The runtime [d] is the one of both stages of the trace [t]: every
    event names it, the log command is started on it, it is looked up for
    the attach, and the file of every image transfer is the path that the
    lookup of [d] answered without error; such an answer is followed by
    the transfer to that path. *)
Definition uses_runtime (d : string) (t : list Event) : Prop :=
  Forall (names_runtime d) t /\
  (exists c r, In (EvStart c r) t /\ Path c = d) /\
  (exists r, In (EvLookPath d r) t) /\
  (forall p argv envv r,
      In (EvExec p argv envv r) t -> In (EvLookPath d (p, None)) t) /\
  (forall p,
      In (EvLookPath d (p, None)) t ->
      exists argv envv r, In (EvExec p argv envv r) t).

(** ** A small operating system to run the bridge on

    A world with a search path, a set of executable files, the files the
    kernel can actually load, and containers with their logs.  It is one
    instance of [OS]; the theorems below hold for every instance. *)
Module Sim.

Record World : Type := mkWorld {
  path_dirs : list string;
  executables : list string;
  loadable : list string;
  containers : list (string * list (ChildStream * string))
}.

Definition mem (s : string) (l : list string) : bool :=
  existsb (String.eqb s) l.

Fixpoint has_slash (s : string) : bool :=
  match s with
  | EmptyString => false
  | String c s' => Ascii.eqb c "/" || has_slash s'
  end.

Fixpoint search (dirs : list string) (file : string) (w : World)
  : option string :=
  match dirs with
  | [] => None
  | d :: ds =>
      let p := (d ++ "/" ++ file)%string in
      if mem p (executables w) then Some p else search ds file w
  end.

Definition lookPath (file : string) (w : World) : string * error :=
  if has_slash file then
    if mem file (executables w) then (file, None)
    else ("", Some ("exec: " ++ file ++ ": no such file or directory")%string)
  else
    match search (path_dirs w) file w with
    | Some p => (p, None)
    | None => ("", Some ("exec: " ++ file ++ ": not found in $PATH")%string)
    end.

Fixpoint logs_of (name : string)
  (cs : list (string * list (ChildStream * string)))
  : option (list (ChildStream * string)) :=
  match cs with
  | [] => None
  | (n, l) :: cs' => if String.eqb n name then Some l else logs_of name cs'
  end.

Definition start (c : Cmd) (w : World) : error * World :=
  (snd (lookPath (Path c) w), w).

Definition wait (c : Cmd) (w : World)
  : list (ChildStream * string) * error * World :=
  let name := last (Args c) "" in
  match logs_of name (containers w) with
  | Some l => (skipn (length l - 200) l, None, w)
  | None =>
      ([(child_stderr, ("Error: No such container: " ++ name)%string)],
       Some "exit status 1", w)
  end.

Definition exec (argv0 : string) (argv envv : list string) (w : World)
  : option string * World :=
  (if mem argv0 (loadable w) then None else Some "exec format error", w).

Definition os : OS World :=
  {| os_start := start; os_wait := wait;
     os_lookPath := fun f w => (lookPath f w, w); os_exec := exec |}.

(** A host with docker installed both at the default place and on the
    search path, and one container that has logged two lines. *)
Definition host : World :=
  {| path_dirs := ["/usr/local/bin"; "/usr/bin"];
     executables := [defaultDocker; "/usr/bin/docker"; "/opt/broken/docker"];
     loadable := [defaultDocker; "/usr/bin/docker"];
     containers :=
       [("mc", [(child_stdout, "2024-01-01T00:00:00Z Starting server");
                (child_stderr, "2024-01-01T00:00:01Z warn: low memory")])] |}.

Definition boot (w : World) : State World :=
  {| proc_env := ["PATH=/usr/local/bin:/usr/bin"; "HOME=/root"];
     world := w |}.

End Sim.

(** ** The shape of every run

    The values the two stages are expected to hand to the operating
    system, and the three ways the Live Relay Stage can end.  [main_run]
    below shows that every run of [main] with a container name has one of
    these shapes, whatever the operating system answers. *)

Definition logsCmd (docker container : string) : Cmd :=
  {| Path := docker;
     Args := [docker; "logs"; "--tail"; "200"; "--timestamps"; container];
     Stdin := None; Stdout := Some os_Stdout; Stderr := Some os_Stdout |}.

Definition attachArgv (docker container : string) : list string :=
  [docker; "attach"; "--sig-proxy=false"; container].

Definition usageMsg : string :=
  ("Usage: saba-docker-io <container_name> [docker_path]" ++ newline)%string.

Definition notFoundMsg (docker e : string) : string :=
  ("[saba-docker-io] docker not found at " ++ docker ++ ": " ++ e
     ++ newline)%string.

Definition execFailedMsg (e : string) : string :=
  ("[saba-docker-io] exec failed: " ++ e ++ newline)%string.

(** What the Replay Stage leaves in the trace for the command [logs]. *)
Inductive Replayed (logs : Cmd) : list Event -> Prop :=
| Replay_not_started (e : string) :
    Replayed logs [EvStart logs (Some e)]
| Replay_waited (out : list (ChildStream * string)) (r : error) :
    Replayed logs
      (EvStart logs None
         :: map (fun o => EvChild os_Stdout (snd o)) out ++ [EvWait logs r]).

(** What the Live Relay Stage leaves in the trace, and how it ends. *)
Inductive Relayed (docker container : string) (env : list string)
  : list Event -> Outcome -> Prop :=
| Relay_runtime_not_found (p e : string) :
    Relayed docker container env
      [EvLookPath docker (p, Some e);
       EvWrite os_Stderr (notFoundMsg docker e)]
      (Exited 2)
| Relay_exec_failed (p e : string) :
    Relayed docker container env
      [EvLookPath docker (p, None);
       EvEnviron env;
       EvExec p (attachArgv docker container) env (Some e);
       EvWrite os_Stderr (execFailedMsg e)]
      (Exited 3)
| Relay_replaced (p : string) :
    Relayed docker container env
      [EvLookPath docker (p, None);
       EvEnviron env;
       EvExec p (attachArgv docker container) env None]
      (Replaced p (attachArgv docker container) env).

(** The events of the Replay Stage as the operating system [os] makes
    them for the command [logs] from the world [w]. *)
Definition replay_events W (os : OS W) (logs : Cmd) (w : W) : list Event :=
  match os_start os logs w with
  | (Some e, _) => [EvStart logs (Some e)]
  | (None, w1) =>
      let '(out, r, _) := os_wait os logs w1 in
      EvStart logs None
        :: map (fun o => EvChild os_Stdout (snd o)) out ++ [EvWait logs r]
  end.

(** ** Sample runs *)

Example run_default :
  run_main Sim.os ["saba-docker-io"; "mc"] (Sim.boot Sim.host) =
  (let logs := mkCmd defaultDocker
                 [defaultDocker; "logs"; "--tail"; "200"; "--timestamps"; "mc"]
                 None (Some os_Stdout) (Some os_Stdout) in
   [EvStart logs None;
    EvChild os_Stdout "2024-01-01T00:00:00Z Starting server";
    EvChild os_Stdout "2024-01-01T00:00:01Z warn: low memory";
    EvWait logs None;
    EvLookPath defaultDocker (defaultDocker, None);
    EvEnviron ["PATH=/usr/local/bin:/usr/bin"; "HOME=/root"];
    EvExec defaultDocker [defaultDocker; "attach"; "--sig-proxy=false"; "mc"]
      ["PATH=/usr/local/bin:/usr/bin"; "HOME=/root"] None],
   Replaced defaultDocker [defaultDocker; "attach"; "--sig-proxy=false"; "mc"]
     ["PATH=/usr/local/bin:/usr/bin"; "HOME=/root"]).
Proof. reflexivity. Qed.

Example run_usage :
  run_main Sim.os ["saba-docker-io"] (Sim.boot Sim.host) =
  ([EvWrite os_Stderr
      ("Usage: saba-docker-io <container_name> [docker_path]" ++ newline)%string],
   Exited 1).
Proof. reflexivity. Qed.

Example run_not_found :
  run_main Sim.os ["saba-docker-io"; "mc"; "podman"] (Sim.boot Sim.host) =
  (let logs := mkCmd "podman"
                 ["podman"; "logs"; "--tail"; "200"; "--timestamps"; "mc"]
                 None (Some os_Stdout) (Some os_Stdout) in
   [EvStart logs (Some "exec: podman: not found in $PATH");
    EvLookPath "podman" ("", Some "exec: podman: not found in $PATH");
    EvWrite os_Stderr
      ("[saba-docker-io] docker not found at podman: " ++
       "exec: podman: not found in $PATH" ++ newline)%string],
   Exited 2).
Proof. reflexivity. Qed.

Example run_exec_failed :
  run_main Sim.os ["saba-docker-io"; "ghost"; "/opt/broken/docker"; "extra"]
    (Sim.boot Sim.host) =
  (let logs := mkCmd "/opt/broken/docker"
                 ["/opt/broken/docker"; "logs"; "--tail"; "200";
                  "--timestamps"; "ghost"]
                 None (Some os_Stdout) (Some os_Stdout) in
   [EvStart logs None;
    EvChild os_Stdout "Error: No such container: ghost";
    EvWait logs (Some "exit status 1");
    EvLookPath "/opt/broken/docker" ("/opt/broken/docker", None);
    EvEnviron ["PATH=/usr/local/bin:/usr/bin"; "HOME=/root"];
    EvExec "/opt/broken/docker"
      ["/opt/broken/docker"; "attach"; "--sig-proxy=false"; "ghost"]
      ["PATH=/usr/local/bin:/usr/bin"; "HOME=/root"]
      (Some "exec format error");
    EvWrite os_Stderr
      ("[saba-docker-io] exec failed: exec format error" ++ newline)%string],
   Exited 3).
Proof. reflexivity. Qed.

(** ** Basic facts *)

Unset Implicit Arguments.

Lemma run_bind W (os : OS W) A B (p : Proc A) (f : A -> Proc B) st :
  run os (Proc_bind p f) st =
  match run os p st with
  | (t, inl o) => (t, inl o)
  | (t, inr (a, st')) =>
      let '(t', res) := run os (f a) st' in (t ++ t', res)
  end.
Proof.
  revert st. induction p as [a | X e k IH]; intros st; simpl.
  - destruct (run os (f a) st); reflexivity.
  - destruct (handle os e st) as [[evs [x | o]] st']; [| reflexivity].
    rewrite IH. destruct (run os (k x) st') as [t [o | [a st'']]].
    + reflexivity.
    + destruct (run os (f a) st''). rewrite app_assoc. reflexivity.
Qed.

(** No request changes the environment of the process. *)
Lemma handle_env W (os : OS W) X (e : Sys X) st :
  proc_env (snd (handle os e st)) = proc_env st.
Proof.
  destruct e; simpl; try reflexivity.
  - destruct (os_start os c (world st)); reflexivity.
  - destruct (os_wait os c (world st)) as [[? ?] ?]; reflexivity.
  - destruct (os_lookPath os file (world st)); reflexivity.
  - destruct (os_exec os argv0 argv envv (world st)); reflexivity.
Qed.

(** Hence a program that runs to its end leaves it as it found it. *)
Lemma run_env W (os : OS W) A (p : Proc A) st t a st' :
  run os p st = (t, inr (a, st')) -> proc_env st' = proc_env st.
Proof.
  revert st t. induction p as [b | X e k IH]; intros st t; simpl.
  - intros [= _ _ <-]. reflexivity.
  - assert (He := handle_env W os X e st).
    destruct (handle os e st) as [[evs [x | o]] st1]; [| discriminate].
    simpl in He.
    destruct (run os (k x) st1) as [t1 res] eqn:Hk.
    intros [= _ ->]. rewrite (IH x st1 t1 Hk). exact He.
Qed.

Lemma route_logsCmd docker container out :
  flat_map (route (logsCmd docker container)) out =
  map (fun o => EvChild os_Stdout (snd o)) out.
Proof.
  induction out as [| [[|] s] out IH]; simpl; congruence.
Qed.

Lemma Replayed_is_replay logs t :
  Replayed logs t -> forallb is_replay t = true.
Proof.
  intros [e | out r]; simpl; [reflexivity |].
  rewrite forallb_app. simpl. rewrite andb_true_r.
  induction out; simpl; auto.
Qed.

Lemma Replayed_finished logs t : Replayed logs t -> replay_finished t.
Proof.
  intros [e | out r]; [left | right]; eauto.
  exists logs, (map (fun o => EvChild os_Stdout (snd o)) out), r.
  split; [reflexivity |].
  intros e Hin. apply in_map_iff in Hin. destruct Hin as [o [<- _]]. eauto.
Qed.

Lemma Replayed_starts logs t : Replayed logs t -> count is_start t = 1%nat.
Proof.
  intros [e | out r]; unfold count; simpl; [reflexivity |].
  rewrite filter_app. simpl. rewrite app_nil_r. f_equal.
  induction out; simpl; auto.
Qed.

Lemma Replayed_no_exec logs t : Replayed logs t -> count is_exec t = 0%nat.
Proof.
  intros [e | out r]; unfold count; simpl; [reflexivity |].
  rewrite filter_app. simpl. rewrite app_nil_r.
  induction out; simpl; auto.
Qed.

(** Nothing reaches standard error during the replay. *)
Lemma Replayed_stderr_silent logs t :
  Replayed logs t -> written os_Stderr t = [].
Proof.
  intros [e | out r]; unfold written; simpl; [reflexivity |].
  rewrite flat_map_app. simpl. rewrite app_nil_r.
  induction out; simpl; auto.
Qed.

Lemma Relayed_not_replay docker container env t o :
  Relayed docker container env t o ->
  forallb (fun e => negb (is_replay e)) t = true.
Proof. intros []; reflexivity. Qed.

(** [Run] starts the command and, when it started, waits for it. *)
Lemma run_Run W (os : OS W) (c : Cmd) (st : State W) :
  run os (Run c) st =
  let '(r, w1) := os_start os c (world st) in
  match r with
  | Some e => ([EvStart c (Some e)], inr (Some e, mkState (proc_env st) w1))
  | None =>
      let '(out, r', w2) := os_wait os c w1 in
      (EvStart c None :: flat_map (route c) out ++ [EvWait c r'],
       inr (r', mkState (proc_env st) w2))
  end.
Proof.
  unfold Run. simpl.
  destruct (os_start os c (world st)) as [[e |] w1]; simpl; [reflexivity |].
  destruct (os_wait os c w1) as [[out r'] w2]; simpl.
  rewrite app_nil_r. reflexivity.
Qed.

(** With a container name, [main] is the log command followed by a
    continuation that does not look at how the command went. *)
Lemma main_replay_first (os_Args : list string) :
  2 <= length os_Args ->
  exists k : Proc unit,
    main os_Args =
    (Run (logsCmd (nth 2 os_Args defaultDocker) (nth 1 os_Args "")) ;; k).
Proof.
  intros Hlen.
  destruct os_Args as [| a0 [| c [| d rest]]]; simpl in Hlen; try lia;
    eexists; reflexivity.
Qed.

(** A run without a container name only prints the usage line. *)
Lemma main_usage W (os : OS W) (os_Args : list string) (st : State W) :
  length os_Args < 2 ->
  run_main os os_Args st = ([EvWrite os_Stderr usageMsg], Exited 1).
Proof.
  intros H. destruct os_Args as [| a0 [| c rest]]; simpl in H;
    [reflexivity | reflexivity | lia].
Qed.

(** Every run of the bridge with a container name is a finished replay of
    the log command followed by one of the three endings of the relay. *)
Lemma main_run W (os : OS W) (os_Args : list string) (st : State W) :
  2 <= length os_Args ->
  let container := nth 1 os_Args "" in
  let docker := nth 2 os_Args defaultDocker in
  exists t1 t2,
    trace os os_Args st = t1 ++ t2 /\
    Replayed (logsCmd docker container) t1 /\
    Relayed docker container (proc_env st) t2 (outcome os os_Args st).
Proof.
  intros Hlen.
  destruct os_Args as [| a0 [| c rest]]; simpl in Hlen; try lia. clear Hlen.
  intros container docker. simpl in container. subst container.
  assert (Hcmd : forall d,
    set_Stderr
      (set_Stdout
         (Command d ["logs"; "--tail"; initialLogTail; "--timestamps"; c])
         os_Stdout) os_Stdout = logsCmd d c) by reflexivity.
  unfold trace, outcome, run_main, main.
  destruct rest as [| d rest]; simpl in docker;
    [pose (dk := defaultDocker) | pose (dk := d)];
    subst docker; simpl; rewrite Hcmd;
    (destruct (os_start os _ _) as [[e1 |] w1]; simpl;
     [ exists [EvStart (logsCmd dk c) (Some e1)]
     | destruct (os_wait os _ w1) as [[out r] w2]; simpl;
       rewrite route_logsCmd;
       exists (EvStart (logsCmd dk c) None
                 :: map (fun o => EvChild os_Stdout (snd o)) out
                 ++ [EvWait (logsCmd dk c) r]) ]);
    (destruct (os_lookPath os _ _) as [[p [e2 |]] w3]; simpl;
     [ | destruct (os_exec os p _ _ w3) as [[e3 |] w4]; simpl ]);
    eexists;
    (split; [simpl; rewrite <- ?app_assoc; reflexivity |]);
    (split; [constructor |]).
  all: first [ apply Relay_runtime_not_found
             | apply Relay_exec_failed
             | apply Relay_replaced ].
Qed.

Lemma length_append (s1 s2 : string) :
  String.length (s1 ++ s2) = String.length s1 + String.length s2.
Proof. induction s1; simpl; auto. Qed.

(** A name found in a directory of the search path is never the bare name
    itself. *)
Lemma joined_path_differs (dir file : string) :
  (dir ++ "/" ++ file)%string <> file.
Proof.
  intros H. apply (f_equal String.length) in H.
  rewrite !length_append in H. simpl in H. lia.
Qed.

Lemma Replayed_In logs t e : Replayed logs t -> In e t -> is_replay e = true.
Proof.
  intros Hr Hin. apply Replayed_is_replay in Hr.
  rewrite forallb_forall in Hr. auto.
Qed.

(** A request of the relay stage met in the trace belongs to its second
    part. *)
Lemma relay_event_in_tail logs t1 t2 e :
  Replayed logs t1 -> is_replay e = false -> In e (t1 ++ t2) -> In e t2.
Proof.
  intros Hr He Hin. apply in_app_or in Hin. destruct Hin as [Hin | Hin]; auto.
  apply (Replayed_In _ _ _ Hr) in Hin. congruence.
Qed.

(** Requests of the relay stage appear only in runs with a container
    name. *)
Lemma relay_event_needs_container W (os : OS W) os_Args st e :
  is_relay e = true -> In e (trace os os_Args st) -> 2 <= length os_Args.
Proof.
  intros He Hin. destruct (Nat.lt_ge_cases (length os_Args) 2) as [H | H]; auto.
  unfold trace in Hin. rewrite (main_usage _ os os_Args st H) in Hin.
  simpl in Hin. destruct Hin as [<- | []]. discriminate.
Qed.

(** ** The Live Relay Stage *)

(** C1: once the runtime has been resolved (the trace records a lookup that
    answered the path [p] without error), the bridge asks for its image to
    be replaced by the file [p] with the argument vector
    [<runtime>; "attach"; "--sig-proxy=false"; <container>] and with the
    environment the process was started with, read right before the
    transfer and handed over as it is.  When the transfer succeeds nothing
    follows it and the process has become that invocation. *)
Theorem attach_invocation_exact W (os : OS W) (os_Args : list string)
        (st : State W) (f p : string) :
  In (EvLookPath f (p, None)) (trace os os_Args st) ->
  let container := nth 1 os_Args "" in
  let docker := nth 2 os_Args defaultDocker in
  let argv := [docker; "attach"; "--sig-proxy=false"; container] in
  exists pre r post,
    trace os os_Args st =
      pre ++ EvLookPath docker (p, None)
          :: EvEnviron (proc_env st)
          :: EvExec p argv (proc_env st) r
          :: post /\
    count is_exec (trace os os_Args st) = 1%nat /\
    (r = None ->
     post = [] /\ outcome os os_Args st = Replaced p argv (proc_env st)).
Proof.
  intros Hin container docker argv.
  assert (Hlen : 2 <= length os_Args)
    by (eapply relay_event_needs_container; [| exact Hin]; reflexivity).
  destruct (main_run _ os os_Args st Hlen) as [t1 [t2 [Ht [Hr1 Hr2]]]].
  fold container docker in Hr1, Hr2.
  rewrite Ht in Hin |- *.
  apply (relay_event_in_tail _ _ _ _ Hr1) in Hin; [| reflexivity].
  assert (Hc := Replayed_no_exec _ _ Hr1).
  unfold count in *. rewrite filter_app, length_app, Hc. clear Hc.
  inversion Hr2 as [q e Ht2 Ho | q e Ht2 Ho | q Ht2 Ho]; subst t2;
    simpl in Hin.
  - destruct Hin as [H | [H | []]]; discriminate.
  - destruct Hin as [H | [H | [H | [H | []]]]]; try discriminate.
    injection H as _ <-.
    exists t1, (Some e), [EvWrite os_Stderr (execFailedMsg e)].
    repeat split; congruence.
  - destruct Hin as [H | [H | [H | []]]]; try discriminate.
    injection H as _ <-.
    exists t1, None, []. repeat split.
Qed.

(** A relay request met in the trace pins down the shape of the run. *)
Lemma relay_event_run W (os : OS W) (os_Args : list string) (st : State W)
      (e : Event) :
  In e (trace os os_Args st) ->
  is_relay e = true ->
  exists t1 t2,
    trace os os_Args st = t1 ++ t2 /\
    Replayed (logsCmd (nth 2 os_Args defaultDocker) (nth 1 os_Args "")) t1 /\
    Relayed (nth 2 os_Args defaultDocker) (nth 1 os_Args "") (proc_env st)
      t2 (outcome os os_Args st) /\
    In e t2.
Proof.
  intros Hin He.
  assert (Hlen := relay_event_needs_container _ os os_Args st e He Hin).
  destruct (main_run _ os os_Args st Hlen) as [t1 [t2 [Ht [Hr1 Hr2]]]].
  exists t1, t2. repeat split; auto.
  rewrite Ht in Hin. apply (relay_event_in_tail _ _ _ _ Hr1) in Hin; auto.
  destruct e; simpl in *; congruence.
Qed.

(** A failed lookup is followed by exit status 2. *)
Lemma lookup_failure_outcome W (os : OS W) (os_Args : list string)
      (st : State W) (f p e : string) :
  In (EvLookPath f (p, Some e)) (trace os os_Args st) ->
  outcome os os_Args st = Exited 2.
Proof.
  intros Hin.
  destruct (relay_event_run _ os os_Args st _ Hin eq_refl)
    as [t1 [t2 [_ [_ [Hr2 Hin2]]]]].
  destruct Hr2; simpl in Hin2;
    repeat (destruct Hin2 as [H | Hin2]; [try discriminate |]);
    try destruct Hin2.
  reflexivity.
Qed.

(** A failed image transfer is followed by exit status 3. *)
Lemma exec_failure_outcome W (os : OS W) (os_Args : list string)
      (st : State W) (p : string) (argv envv : list string) (e : string) :
  In (EvExec p argv envv (Some e)) (trace os os_Args st) ->
  outcome os os_Args st = Exited 3.
Proof.
  intros Hin.
  destruct (relay_event_run _ os os_Args st _ Hin eq_refl)
    as [t1 [t2 [_ [_ [Hr2 Hin2]]]]].
  destruct Hr2; simpl in Hin2;
    repeat (destruct Hin2 as [H | Hin2]; [try discriminate |]);
    try destruct Hin2.
  reflexivity.
Qed.

(** C4: when the lookup of the runtime fails, the run ends right there with
    a diagnostic naming the runtime and the error on standard error and
    with exit status 2; the trace holds no image-transfer request. *)
Theorem runtime_not_found_exit W (os : OS W) (os_Args : list string)
        (st : State W) (f p e : string) :
  In (EvLookPath f (p, Some e)) (trace os os_Args st) ->
  let docker := nth 2 os_Args defaultDocker in
  exists pre,
    trace os os_Args st =
      pre ++ [EvLookPath docker (p, Some e);
              EvWrite os_Stderr
                ("[saba-docker-io] docker not found at " ++ docker ++ ": "
                   ++ e ++ newline)%string] /\
    written os_Stderr pre = [] /\
    outcome os os_Args st = Exited 2 /\
    count is_exec (trace os os_Args st) = 0%nat.
Proof.
  intros Hin docker.
  assert (Ho := lookup_failure_outcome _ os os_Args st f p e Hin).
  destruct (relay_event_run _ os os_Args st _ Hin eq_refl)
    as [t1 [t2 [Ht [Hr1 [Hr2 Hin2]]]]].
  fold docker in Hr1, Hr2. rewrite Ho in Hr2. rewrite Ht.
  assert (Hc := Replayed_no_exec _ _ Hr1).
  assert (Hw := Replayed_stderr_silent _ _ Hr1).
  unfold count in *. rewrite filter_app, length_app, Hc. clear Hc.
  inversion Hr2 as [q e' Ht2 | |]; subst t2. simpl in Hin2.
  destruct Hin2 as [H | [H | []]]; try discriminate.
  injection H as _ <- <-.
  exists t1. repeat split; [exact Hw | exact Ho].
Qed.

(** C5: when the image transfer is refused, the bridge reports the error on
    standard error and ends with exit status 3; that transfer request is
    the only one of the run. *)
Theorem exec_failed_exit W (os : OS W) (os_Args : list string)
        (st : State W) (p : string) (argv envv : list string) (e : string) :
  In (EvExec p argv envv (Some e)) (trace os os_Args st) ->
  exists pre,
    trace os os_Args st =
      pre ++ [EvExec p argv envv (Some e);
              EvWrite os_Stderr
                ("[saba-docker-io] exec failed: " ++ e ++ newline)%string] /\
    written os_Stderr pre = [] /\
    outcome os os_Args st = Exited 3 /\
    count is_exec (trace os os_Args st) = 1%nat.
Proof.
  intros Hin.
  assert (Ho := exec_failure_outcome _ os os_Args st p argv envv e Hin).
  destruct (relay_event_run _ os os_Args st _ Hin eq_refl)
    as [t1 [t2 [Ht [Hr1 [Hr2 Hin2]]]]].
  rewrite Ho in Hr2. rewrite Ht.
  assert (Hc := Replayed_no_exec _ _ Hr1).
  assert (Hw := Replayed_stderr_silent _ _ Hr1).
  unfold count in *. rewrite filter_app, length_app, Hc. clear Hc.
  inversion Hr2 as [| q e' Ht2 |]; subst t2. simpl in Hin2.
  destruct Hin2 as [H | [H | [H | [H | []]]]]; try discriminate.
  injection H as <- <- <- <-.
  exists (t1 ++ [EvLookPath (nth 2 os_Args defaultDocker) (q, None);
                 EvEnviron (proc_env st)]).
  rewrite <- app_assoc. repeat split; [| exact Ho].
  unfold written in *. rewrite flat_map_app, Hw. reflexivity.
Qed.

(** C9: the file handed to the image transfer is the path the lookup
    answered, while the first element of the argument vector is the runtime
    string as it was given (or defaulted).  So when the runtime is a name
    that the lookup found in a directory [dir] of the search path, the two
    differ. *)
Theorem exec_file_and_argv0 W (os : OS W) (os_Args : list string)
        (st : State W) (f p : string) :
  In (EvLookPath f (p, None)) (trace os os_Args st) ->
  let docker := nth 2 os_Args defaultDocker in
  f = docker /\
  exists argv envv r,
    In (EvExec p argv envv r) (trace os os_Args st) /\
    hd_error argv = Some docker /\
    (forall dir, p = (dir ++ "/" ++ docker)%string -> hd_error argv <> Some p).
Proof.
  intros Hin docker.
  assert (Hlen : 2 <= length os_Args)
    by (eapply relay_event_needs_container; [| exact Hin]; reflexivity).
  destruct (main_run _ os os_Args st Hlen) as [t1 [t2 [Ht [Hr1 Hr2]]]].
  fold docker in Hr1, Hr2.
  rewrite Ht in Hin |- *.
  apply (relay_event_in_tail _ _ _ _ Hr1) in Hin; [| reflexivity].
  assert (Hne : forall dir, p = (dir ++ "/" ++ docker)%string ->
                            Some docker <> Some p).
  { intros dir -> [= H]. symmetry in H. exact (joined_path_differs _ _ H). }
  inversion Hr2 as [q e Ht2 Ho | q e Ht2 Ho | q Ht2 Ho]; subst t2;
    simpl in Hin.
  - destruct Hin as [H | [H | []]]; discriminate.
  - destruct Hin as [H | [H | [H | [H | []]]]]; try discriminate.
    injection H as <- <-. split; [reflexivity |].
    exists (attachArgv docker (nth 1 os_Args "")), (proc_env st), (Some e).
    split; [| split; [reflexivity | exact Hne]].
    apply in_or_app. right. simpl. auto.
  - destruct Hin as [H | [H | [H | []]]]; try discriminate.
    injection H as <- <-. split; [reflexivity |].
    exists (attachArgv docker (nth 1 os_Args "")), (proc_env st), None.
    split; [| split; [reflexivity | exact Hne]].
    apply in_or_app. right. simpl. auto.
Qed.

(** ** The Replay Stage *)

(** C6: the first thing a run with a container name does is start the
    command [<runtime> logs --tail 200 --timestamps <container>], whose
    standard output and standard error both name the bridge's standard
    output (its standard input is left unset).  Whatever the subprocess
    writes on either of its streams
    arrives, chunk by chunk and in order, on the bridge's standard output,
    and no subprocess output arrives anywhere else. *)
Theorem replay_log_invocation W (os : OS W) (os_Args : list string)
        (st : State W) :
  2 <= length os_Args ->
  let container := nth 1 os_Args "" in
  let docker := nth 2 os_Args defaultDocker in
  initialLogTail = "200" /\
  exists logs r t,
    trace os os_Args st = EvStart logs r :: t /\
    Path logs = docker /\
    Args logs =
      docker :: ["logs"; "--tail"; initialLogTail; "--timestamps"; container] /\
    Stdin logs = None /\
    Stdout logs = Some os_Stdout /\
    Stderr logs = Some os_Stdout /\
    (forall w1 out r' w2,
        os_start os logs (world st) = (None, w1) ->
        os_wait os logs w1 = (out, r', w2) ->
        exists t',
          t = map (fun o => EvChild os_Stdout (snd o)) out
                ++ EvWait logs r' :: t') /\
    (forall g s, In (EvChild g s) (trace os os_Args st) -> g = os_Stdout).
Proof.
  intros Hlen container docker. split; [reflexivity |].
  assert (Hchild : forall g s,
             In (EvChild g s) (trace os os_Args st) -> g = os_Stdout).
  { destruct (main_run _ os os_Args st Hlen) as [t1 [t2 [Ht [Hr1 Hr2]]]].
    intros g s Hin. rewrite Ht in Hin. apply in_app_or in Hin.
    destruct Hin as [Hin | Hin].
    - destruct Hr1 as [e | out r]; simpl in Hin.
      + destruct Hin as [H | []]; discriminate.
      + destruct Hin as [H | Hin]; [discriminate |].
        apply in_app_or in Hin. destruct Hin as [Hin | [H | []]];
          [| discriminate].
        apply in_map_iff in Hin. destruct Hin as [o [[= <- _] _]].
        reflexivity.
    - destruct Hr2; simpl in Hin;
        repeat (destruct Hin as [H | Hin]; [discriminate |]);
        destruct Hin. }
  exists (logsCmd docker container).
  destruct (main_replay_first os_Args Hlen) as [k Hk].
  fold container docker in Hk.
  revert Hchild. unfold trace, run_main. rewrite Hk. clear Hk.
  change (Run (logsCmd docker container) ;; k)
    with (Proc_bind (Run (logsCmd docker container)) (fun _ => k)).
  rewrite run_bind, run_Run.
  destruct (os_start os _ _) as [[e1 |] w1] eqn:Hstart;
    [ | destruct (os_wait os _ w1) as [[out r] w2] eqn:Hwait;
        rewrite route_logsCmd ];
    (destruct (run os k _) as [t' res]; simpl);
    intros Hchild; eexists _, _;
    (split; [reflexivity |]);
    repeat (split; [reflexivity |]);
    (split; [| exact Hchild]);
    intros w1' out' r' w2' [= <-]; try discriminate;
    rewrite Hwait; intros [= <- <- <-];
    eexists; rewrite <- app_assoc; reflexivity.
Qed.

(** C3: with a container name present, the result of the log command is
    never looked at: the program is the log command followed by one fixed
    continuation.  Accordingly every run, whatever the operating system
    answers to the log command, goes on to the lookup of the runtime that
    opens the Live Relay Stage; before it the trace holds replay events
    only and nothing has reached standard error. *)
Theorem replay_failure_swallowed W (os : OS W) (os_Args : list string)
        (st : State W) :
  2 <= length os_Args ->
  let container := nth 1 os_Args "" in
  let docker := nth 2 os_Args defaultDocker in
  (exists k : Proc unit,
      main os_Args = (Run (logsCmd docker container) ;; k)) /\
  exists t1 r t2,
    trace os os_Args st = t1 ++ EvLookPath docker r :: t2 /\
    forallb is_replay t1 = true /\
    written os_Stderr t1 = [].
Proof.
  intros Hlen container docker.
  split; [exact (main_replay_first os_Args Hlen) |].
  destruct (main_run _ os os_Args st Hlen) as [t1 [t2 [Ht [Hr1 Hr2]]]].
  fold container docker in Hr1, Hr2.
  exists t1.
  destruct Hr2; eexists _, _;
    (split; [rewrite Ht; reflexivity |]);
    (split; [exact (Replayed_is_replay _ _ Hr1)
            | exact (Replayed_stderr_silent _ _ Hr1)]).
Qed.

(** ** Ordering of the two stages *)

(** C2: every trace splits into a first part made of replay events only
    and a second part without any replay event, so no step of the relay
    comes before the end of the replay and the run never goes back to it.
    Whenever the second part holds a relay step, the first part is a
    finished replay: the subprocess failed to start, or it was waited for
    until it exited.  The log command is started at most once. *)
Theorem replay_completes_before_relay W (os : OS W) (os_Args : list string)
        (st : State W) :
  exists t1 t2,
    trace os os_Args st = t1 ++ t2 /\
    forallb is_replay t1 = true /\
    forallb (fun e => negb (is_replay e)) t2 = true /\
    (forall e, In e t1 -> is_relay e = false) /\
    ((exists e, In e t2 /\ is_relay e = true) -> replay_finished t1) /\
    count is_start (trace os os_Args st) <= 1.
Proof.
  destruct (Nat.lt_ge_cases (length os_Args) 2) as [Hlen | Hlen].
  - exists [], [EvWrite os_Stderr usageMsg].
    unfold trace. rewrite (main_usage _ os os_Args st Hlen). simpl.
    repeat split; auto.
    + intros e [].
    + intros [e [[<- | []] He]]. discriminate.
  - destruct (main_run _ os os_Args st Hlen) as [t1 [t2 [Ht [Hr1 Hr2]]]].
    exists t1, t2. rewrite Ht.
    assert (H1 := Replayed_is_replay _ _ Hr1).
    repeat split.
    + exact H1.
    + exact (Relayed_not_replay _ _ _ _ _ Hr2).
    + intros e Hin. rewrite forallb_forall in H1. apply H1 in Hin.
      destruct e; simpl in *; congruence.
    + intros _. exact (Replayed_finished _ _ Hr1).
    + unfold count in *. rewrite filter_app, length_app.
      fold (count is_start t1). rewrite (Replayed_starts _ _ Hr1).
      destruct Hr2; simpl; lia.
Qed.

(** ** Arguments *)

Lemma main_uses_runtime W (os : OS W) (os_Args : list string) (st : State W) :
  2 <= length os_Args ->
  uses_runtime (nth 2 os_Args defaultDocker) (trace os os_Args st).
Proof.
  intros Hlen.
  destruct (main_run _ os os_Args st Hlen) as [t1 [t2 [Ht [Hr1 Hr2]]]].
  rewrite Ht. repeat split.
  - apply Forall_app. split.
    + destruct Hr1 as [e | out r].
      * repeat constructor.
      * constructor; [split; reflexivity |].
        apply Forall_app. split; [| repeat constructor].
        apply Forall_forall. intros e Hin. apply in_map_iff in Hin.
        destruct Hin as [o [<- _]]. exact I.
    + destruct Hr2; repeat constructor.
  - exists (logsCmd (nth 2 os_Args defaultDocker) (nth 1 os_Args "")).
    destruct Hr1; eexists; (split; [apply in_or_app; left | reflexivity]);
      simpl; eauto.
  - destruct Hr2; eexists; apply in_or_app; right; simpl; eauto.
  - intros p argv envv r Hin.
    apply (relay_event_in_tail _ _ _ _ Hr1) in Hin; [| reflexivity].
    apply in_or_app. right.
    destruct Hr2; simpl in Hin |- *;
      repeat (destruct Hin as [H | Hin]; [try discriminate |]);
      try destruct Hin;
      injection H as <- _ _ _; auto.
  - intros p Hin.
    apply (relay_event_in_tail _ _ _ _ Hr1) in Hin; [| reflexivity].
    destruct Hr2; simpl in Hin;
      repeat (destruct Hin as [H | Hin]; [try discriminate |]);
      try destruct Hin;
      injection H as <-;
      eexists _, _, _; apply in_or_app; right; simpl; eauto.
Qed.

(** C7: without a second argument the fixed default path
    [/opt/saba-chan/docker/docker] is the runtime, as it is written; with
    a second argument, that argument is.  In both cases the same string is
    the command of the log subprocess, the file looked up for the attach,
    and the first element of the attach argument vector; and the file the
    attach invocation executes is the path that the lookup of that very
    string answered, never another one. *)
Theorem runtime_path_selection W (os : OS W) (a0 container : string)
        (st : State W) :
  defaultDocker = "/opt/saba-chan/docker/docker" /\
  uses_runtime defaultDocker (trace os [a0; container] st) /\
  forall (runtime_path : string) (more : list string),
    uses_runtime runtime_path
      (trace os (a0 :: container :: runtime_path :: more) st).
Proof.
  split; [reflexivity |]. split.
  - apply (main_uses_runtime _ os [a0; container] st). simpl. lia.
  - intros d more.
    apply (main_uses_runtime _ os (a0 :: container :: d :: more) st).
    simpl. lia.
Qed.

(** C10: two invocations with the same container name and runtime path
    are the same program, whatever follows the second argument; hence on
    every operating system and from every state they give the same trace
    and end the same way.  With C6 and C1 the further arguments reach
    neither the log nor the attach invocation. *)
Theorem extra_arguments_ignored (a0 a0' container runtime_path : string)
        (more more' : list string) :
  main (a0 :: container :: runtime_path :: more) =
  main (a0' :: container :: runtime_path :: more') /\
  forall W (os : OS W) (st : State W),
    run_main os (a0 :: container :: runtime_path :: more) st =
    run_main os (a0' :: container :: runtime_path :: more') st.
Proof.
  assert (H : main (a0 :: container :: runtime_path :: more) =
              main (a0' :: container :: runtime_path :: more'))
    by reflexivity.
  split; [exact H |].
  intros W os st. unfold run_main. rewrite H. reflexivity.
Qed.

(** ** Exit codes *)

(** C8: without a container name the bridge only writes the usage line to
    standard error and exits with status 1.  A run that ends on a usage
    error, a run whose lookup of the runtime failed and a run whose image
    transfer failed each end by an exit, and the three exit codes are
    pairwise distinct. *)
Theorem usage_error_and_exit_codes W (os : OS W) :
  (forall os_Args st,
      length os_Args < 2 ->
      run_main os os_Args st =
      ([EvWrite os_Stderr
          ("Usage: saba-docker-io <container_name> [docker_path]"
             ++ newline)%string],
       Exited 1)) /\
  (forall args1 args2 args3 st1 st2 st3 f p e q argv envv e',
      length args1 < 2 ->
      In (EvLookPath f (p, Some e)) (trace os args2 st2) ->
      In (EvExec q argv envv (Some e')) (trace os args3 st3) ->
      exists usage runtimeNotFound execFailed,
        outcome os args1 st1 = Exited usage /\
        outcome os args2 st2 = Exited runtimeNotFound /\
        outcome os args3 st3 = Exited execFailed /\
        usage <> runtimeNotFound /\
        usage <> execFailed /\
        runtimeNotFound <> execFailed).
Proof.
  split.
  - intros os_Args st Hlen. exact (main_usage _ os os_Args st Hlen).
  - intros args1 args2 args3 st1 st2 st3 f p e q argv envv e' H1 H2 H3.
    exists 1%Z, 2%Z, 3%Z.
    split; [unfold outcome; rewrite (main_usage _ os args1 st1 H1);
            reflexivity |].
    split.
    { exact (lookup_failure_outcome _ os args2 st2 f p e H2). }
    split.
    { exact (exec_failure_outcome _ os args3 st3 q argv envv e' H3). }
    repeat split; discriminate.
Qed.

(** ** Further properties of the bridge *)

(** The replay part of a run is the one the operating system's answers to
    the log command determine; the relay follows it. *)
Lemma main_run_os W (os : OS W) (os_Args : list string) (st : State W) :
  2 <= length os_Args ->
  let container := nth 1 os_Args "" in
  let docker := nth 2 os_Args defaultDocker in
  exists t2,
    trace os os_Args st =
      replay_events os (logsCmd docker container) (world st) ++ t2 /\
    Relayed docker container (proc_env st) t2 (outcome os os_Args st).
Proof.
  intros Hlen.
  destruct os_Args as [| a0 [| c rest]]; simpl in Hlen; try lia. clear Hlen.
  intros container docker. simpl in container. subst container.
  assert (Hcmd : forall d,
    set_Stderr
      (set_Stdout
         (Command d ["logs"; "--tail"; initialLogTail; "--timestamps"; c])
         os_Stdout) os_Stdout = logsCmd d c) by reflexivity.
  unfold trace, outcome, run_main, main, replay_events.
  destruct rest as [| d rest]; simpl in docker; subst docker; simpl;
    rewrite Hcmd;
    (destruct (os_start os _ _) as [[e1 |] w1]; simpl;
     [ | destruct (os_wait os _ w1) as [[out r] w2]; simpl;
         rewrite route_logsCmd ]);
    (destruct (os_lookPath os _ _) as [[p [e2 |]] w3]; simpl;
     [ | destruct (os_exec os p _ _ w3) as [[e3 |] w4]; simpl ]);
    eexists;
    (split; [simpl; rewrite <- ?app_assoc; reflexivity |]).
  all: first [ apply Relay_runtime_not_found
             | apply Relay_exec_failed
             | apply Relay_replaced ].
Qed.

(** X1: the way a run ends tells what happened.  Exit status 1 is given
    only for a missing container name, 2 only after a failed lookup of the
    runtime, 3 only after a failed image transfer; the bridge never exits
    with status 0, never panics on its argument vector, and its image is
    replaced only by a transfer that the trace records as successful. *)
Theorem exit_status_tells_cause W (os : OS W) (os_Args : list string)
        (st : State W) :
  match outcome os os_Args st with
  | Exited code =>
      (code = 1%Z /\ length os_Args < 2) \/
      (code = 2%Z /\ 2 <= length os_Args /\
       exists p e, In (EvLookPath (nth 2 os_Args defaultDocker) (p, Some e))
                      (trace os os_Args st)) \/
      (code = 3%Z /\ 2 <= length os_Args /\
       exists p argv e, In (EvExec p argv (proc_env st) (Some e))
                           (trace os os_Args st))
  | Panicked => False
  | Replaced p argv envv =>
      2 <= length os_Args /\
      In (EvExec p argv envv None) (trace os os_Args st)
  end.
Proof.
  destruct (Nat.lt_ge_cases (length os_Args) 2) as [Hlen | Hlen].
  - unfold outcome. rewrite (main_usage _ os os_Args st Hlen). simpl. auto.
  - destruct (main_run _ os os_Args st Hlen) as [t1 [t2 [Ht [_ Hr2]]]].
    rewrite Ht.
    inversion Hr2 as [p e Ht2 Ho | p e Ht2 Ho | p Ht2 Ho].
    + right; left. repeat split; auto.
      exists p, e. apply in_or_app. right. simpl. auto.
    + right; right. repeat split; auto.
      exists p, (attachArgv (nth 2 os_Args defaultDocker) (nth 1 os_Args "")), e.
      apply in_or_app. right. simpl. auto.
    + split; auto. apply in_or_app. right. simpl. auto.
Qed.

(** X2: the bridge itself writes to standard error only, at most one
    message per run, and standard error stays silent exactly in the runs
    that end with the image replaced. *)
Theorem diagnostics_only_on_failure W (os : OS W) (os_Args : list string)
        (st : State W) :
  (forall f s, In (EvWrite f s) (trace os os_Args st) -> f = os_Stderr) /\
  length (written os_Stderr (trace os os_Args st)) <= 1 /\
  (written os_Stderr (trace os os_Args st) = [] <->
   exists p argv envv, outcome os os_Args st = Replaced p argv envv).
Proof.
  destruct (Nat.lt_ge_cases (length os_Args) 2) as [Hlen | Hlen].
  - unfold trace, outcome. rewrite (main_usage _ os os_Args st Hlen). simpl.
    repeat split.
    + intros f s [[= <- _] | []]. reflexivity.
    + lia.
    + discriminate.
    + intros [p [argv [envv H]]]. discriminate.
  - destruct (main_run _ os os_Args st Hlen) as [t1 [t2 [Ht [Hr1 Hr2]]]].
    rewrite Ht.
    assert (Hw := Replayed_stderr_silent _ _ Hr1).
    assert (H1 : forall f s, In (EvWrite f s) t1 -> f = os_Stderr).
    { intros f s Hin. apply (Replayed_In _ _ _ Hr1) in Hin. discriminate. }
    unfold written in *. rewrite flat_map_app, Hw. simpl.
    inversion Hr2 as [p e Ht2 Ho | p e Ht2 Ho | p Ht2 Ho]; simpl;
      (split; [intros f s Hin; apply in_app_or in Hin;
               destruct Hin as [Hin | Hin]; [exact (H1 f s Hin) |];
               simpl in Hin;
               repeat (destruct Hin as [[= <- _] | Hin]; [reflexivity |]);
               repeat (destruct Hin as [Hin | Hin]; [discriminate |]);
               try (destruct Hin as [[= <- _] | Hin]; [reflexivity |]);
               destruct Hin |]);
      (split; [lia |]); split;
      try discriminate;
      try (intros [q [argv [envv H]]]; discriminate);
      eauto.
Qed.

(** X3: what reaches the standard output of the bridge before the image
    transfer is exactly what the log subprocess wrote, on either of its
    streams, in the order it wrote it; it is nothing when there is no
    container name or when the subprocess could not be started. *)
Theorem stdout_is_replayed_log W (os : OS W) (os_Args : list string)
        (st : State W) :
  written os_Stdout (trace os os_Args st) =
  if (length os_Args <? 2)%nat then []
  else
    let logs := logsCmd (nth 2 os_Args defaultDocker) (nth 1 os_Args "") in
    match os_start os logs (world st) with
    | (Some _, _) => []
    | (None, w1) => map snd (fst (fst (os_wait os logs w1)))
    end.
Proof.
  destruct (Nat.ltb_spec (length os_Args) 2) as [Hlen | Hlen].
  - unfold trace. rewrite (main_usage _ os os_Args st Hlen). reflexivity.
  - destruct (main_run_os _ os os_Args st Hlen) as [t2 [Ht Hr2]].
    rewrite Ht. unfold written. rewrite flat_map_app.
    assert (H2 : flat_map
                   (fun e => match e with
                             | EvWrite g s | EvChild g s =>
                                 if File_eqb os_Stdout g then [s] else []
                             | _ => []
                             end) t2 = []) by (destruct Hr2; reflexivity).
    rewrite H2, app_nil_r. clear H2 Ht Hr2. unfold replay_events. simpl.
    destruct (os_start os _ (world st)) as [[e |] w1]; [reflexivity |].
    destruct (os_wait os _ w1) as [[out r] w2]. simpl.
    rewrite flat_map_app. simpl. rewrite app_nil_r.
    induction out as [| o out IH]; simpl; [reflexivity | now rewrite IH].
Qed.


(** ** The theorems at work on the sample host *)

Ltac in_trace :=
  vm_compute; repeat (first [left; reflexivity | right]).

(** The runtime given as the bare name [docker] is found in [/usr/bin]. *)
Lemma attach_invocation_exact_witness :
  let os_Args := ["saba-docker-io"; "mc"; "docker"] in
  let st := Sim.boot Sim.host in
  In (EvLookPath "docker" ("/usr/bin/docker", None))
     (trace Sim.os os_Args st) /\
  exists pre r post,
    trace Sim.os os_Args st =
      pre ++ EvLookPath "docker" ("/usr/bin/docker", None)
          :: EvEnviron (proc_env st)
          :: EvExec "/usr/bin/docker"
               ["docker"; "attach"; "--sig-proxy=false"; "mc"]
               (proc_env st) r
          :: post /\
    count is_exec (trace Sim.os os_Args st) = 1%nat /\
    (r = None ->
     post = [] /\
     outcome Sim.os os_Args st =
       Replaced "/usr/bin/docker"
         ["docker"; "attach"; "--sig-proxy=false"; "mc"] (proc_env st)).
Proof.
  intros os_Args st.
  assert (H : In (EvLookPath "docker" ("/usr/bin/docker", None))
                 (trace Sim.os os_Args st)) by in_trace.
  split; [exact H |].
  exact (attach_invocation_exact Sim.World Sim.os os_Args st
           "docker" "/usr/bin/docker" H).
Defined.

(** No container runtime called [podman] is installed on the host. *)
Lemma runtime_not_found_exit_witness :
  let os_Args := ["saba-docker-io"; "mc"; "podman"] in
  let st := Sim.boot Sim.host in
  let e := "exec: podman: not found in $PATH" in
  In (EvLookPath "podman" ("", Some e)) (trace Sim.os os_Args st) /\
  exists pre,
    trace Sim.os os_Args st =
      pre ++ [EvLookPath "podman" ("", Some e);
              EvWrite os_Stderr
                ("[saba-docker-io] docker not found at " ++ "podman" ++ ": "
                   ++ e ++ newline)%string] /\
    written os_Stderr pre = [] /\
    outcome Sim.os os_Args st = Exited 2 /\
    count is_exec (trace Sim.os os_Args st) = 0%nat.
Proof.
  intros os_Args st e.
  assert (H : In (EvLookPath "podman" ("", Some e))
                 (trace Sim.os os_Args st)) by in_trace.
  split; [exact H |].
  exact (runtime_not_found_exit Sim.World Sim.os os_Args st "podman" "" e H).
Defined.

(** [/opt/broken/docker] is executable but the kernel cannot load it. *)
Lemma exec_failed_exit_witness :
  let os_Args := ["saba-docker-io"; "mc"; "/opt/broken/docker"] in
  let st := Sim.boot Sim.host in
  let argv := ["/opt/broken/docker"; "attach"; "--sig-proxy=false"; "mc"] in
  In (EvExec "/opt/broken/docker" argv (proc_env st)
        (Some "exec format error"))
     (trace Sim.os os_Args st) /\
  exists pre,
    trace Sim.os os_Args st =
      pre ++ [EvExec "/opt/broken/docker" argv (proc_env st)
                (Some "exec format error");
              EvWrite os_Stderr
                ("[saba-docker-io] exec failed: " ++ "exec format error"
                   ++ newline)%string] /\
    written os_Stderr pre = [] /\
    outcome Sim.os os_Args st = Exited 3 /\
    count is_exec (trace Sim.os os_Args st) = 1%nat.
Proof.
  intros os_Args st argv.
  assert (H : In (EvExec "/opt/broken/docker" argv (proc_env st)
                    (Some "exec format error"))
                 (trace Sim.os os_Args st)) by in_trace.
  split; [exact H |].
  exact (exec_failed_exit Sim.World Sim.os os_Args st
           "/opt/broken/docker" argv (proc_env st) "exec format error" H).
Defined.

(** The bare name [docker] is run from [/usr/bin/docker]. *)
Lemma exec_file_and_argv0_witness :
  let os_Args := ["saba-docker-io"; "mc"; "docker"] in
  let st := Sim.boot Sim.host in
  In (EvLookPath "docker" ("/usr/bin/docker", None))
     (trace Sim.os os_Args st) /\
  "/usr/bin/docker" = ("/usr/bin" ++ "/" ++ "docker")%string /\
  exists argv envv r,
    In (EvExec "/usr/bin/docker" argv envv r) (trace Sim.os os_Args st) /\
    hd_error argv = Some "docker" /\
    hd_error argv <> Some "/usr/bin/docker".
Proof.
  intros os_Args st.
  assert (H : In (EvLookPath "docker" ("/usr/bin/docker", None))
                 (trace Sim.os os_Args st)) by in_trace.
  split; [exact H |]. split; [reflexivity |].
  destruct (exec_file_and_argv0 Sim.World Sim.os os_Args st
              "docker" "/usr/bin/docker" H)
    as [_ [argv [envv [r [Hin [Hhd Hne]]]]]].
  exists argv, envv, r. split; [exact Hin |]. split; [exact Hhd |].
  exact (Hne "/usr/bin" eq_refl).
Defined.

(** The two logged lines of container [mc], one from each stream of the
    subprocess, both arrive on standard output. *)
Lemma replay_log_invocation_witness :
  let os_Args := ["saba-docker-io"; "mc"] in
  let st := Sim.boot Sim.host in
  2 <= length os_Args /\
  exists t',
    trace Sim.os os_Args st =
      EvStart (logsCmd defaultDocker "mc") None
        :: [EvChild os_Stdout "2024-01-01T00:00:00Z Starting server";
            EvChild os_Stdout "2024-01-01T00:00:01Z warn: low memory"]
        ++ EvWait (logsCmd defaultDocker "mc") None :: t'.
Proof.
  intros os_Args st.
  assert (H : 2 <= length os_Args) by (simpl; lia).
  split; [exact H |].
  destruct (replay_log_invocation Sim.World Sim.os os_Args st H)
    as [_ [logs [r [t [Ht [Hp [Ha [Hin [Hout [Herr [Hwait _]]]]]]]]]]].
  destruct logs as [path args sin sout serr]. simpl in Hp, Ha, Hin, Hout, Herr.
  subst path args sin sout serr.
  destruct (Hwait Sim.host
              [(child_stdout, "2024-01-01T00:00:00Z Starting server");
               (child_stderr, "2024-01-01T00:00:01Z warn: low memory")]
              None Sim.host eq_refl eq_refl) as [t' Ht'].
  exists t'. rewrite Ht. rewrite Ht' in *.
  assert (Hr : r = None).
  { assert (Hc : hd_error (trace Sim.os os_Args st) =
                 Some (EvStart (logsCmd defaultDocker "mc") None))
      by reflexivity.
    rewrite Ht in Hc. simpl in Hc. injection Hc as Hc. exact Hc. }
  rewrite Hr. reflexivity.
Defined.

(** A container that does not exist: the log command fails and the run
    goes on to the lookup all the same. *)
Lemma replay_failure_swallowed_witness :
  let os_Args := ["saba-docker-io"; "ghost"] in
  let st := Sim.boot Sim.host in
  2 <= length os_Args /\
  In (EvWait (logsCmd defaultDocker "ghost") (Some "exit status 1"))
     (trace Sim.os os_Args st) /\
  (exists k : Proc unit,
      main os_Args = (Run (logsCmd defaultDocker "ghost") ;; k)) /\
  exists t1 r t2,
    trace Sim.os os_Args st = t1 ++ EvLookPath defaultDocker r :: t2 /\
    forallb is_replay t1 = true /\
    written os_Stderr t1 = [].
Proof.
  intros os_Args st.
  assert (H : 2 <= length os_Args) by (simpl; lia).
  split; [exact H |]. split; [in_trace |].
  exact (replay_failure_swallowed Sim.World Sim.os os_Args st H).
Defined.

Lemma replay_completes_before_relay_witness :
  let os_Args := ["saba-docker-io"; "mc"] in
  let st := Sim.boot Sim.host in
  exists t1 t2,
    trace Sim.os os_Args st = t1 ++ t2 /\
    forallb is_replay t1 = true /\
    forallb (fun e => negb (is_replay e)) t2 = true /\
    (forall e, In e t1 -> is_relay e = false) /\
    ((exists e, In e t2 /\ is_relay e = true) -> replay_finished t1) /\
    count is_start (trace Sim.os os_Args st) <= 1.
Proof.
  intros os_Args st.
  exact (replay_completes_before_relay Sim.World Sim.os os_Args st).
Defined.

Lemma runtime_path_selection_witness :
  let st := Sim.boot Sim.host in
  uses_runtime defaultDocker (trace Sim.os ["saba-docker-io"; "mc"] st) /\
  uses_runtime "docker"
    (trace Sim.os ["saba-docker-io"; "mc"; "docker"; "extra"] st) /\
  (forall p argv envv r,
      In (EvExec p argv envv r)
         (trace Sim.os ["saba-docker-io"; "mc"; "/usr/bin/docker"] st) ->
      In (EvLookPath "/usr/bin/docker" (p, None))
         (trace Sim.os ["saba-docker-io"; "mc"; "/usr/bin/docker"] st)) /\
  exists argv envv r,
    In (EvExec "/usr/bin/docker" argv envv r)
       (trace Sim.os ["saba-docker-io"; "mc"; "/usr/bin/docker"] st).
Proof.
  intros st.
  destruct (runtime_path_selection Sim.World Sim.os "saba-docker-io" "mc" st)
    as [_ [Hdefault Hgiven]].
  split; [exact Hdefault |]. split; [exact (Hgiven "docker" ["extra"]) |].
  destruct (Hgiven "/usr/bin/docker" []) as [_ [_ [_ [Hfile Hattach]]]].
  split; [exact Hfile |].
  apply Hattach. in_trace.
Defined.

Lemma extra_arguments_ignored_witness :
  run_main Sim.os ["saba-docker-io"; "mc"; "docker"; "--rm"; "-it"]
    (Sim.boot Sim.host) =
  run_main Sim.os ["saba-docker-io"; "mc"; "docker"] (Sim.boot Sim.host).
Proof.
  exact (proj2 (extra_arguments_ignored "saba-docker-io" "saba-docker-io"
                  "mc" "docker" ["--rm"; "-it"] [])
           Sim.World Sim.os (Sim.boot Sim.host)).
Defined.

(** The three failing runs of the sample host end with three different
    exit codes. *)
Lemma usage_error_and_exit_codes_witness :
  let st := Sim.boot Sim.host in
  let args1 := ["saba-docker-io"] in
  let args2 := ["saba-docker-io"; "mc"; "podman"] in
  let args3 := ["saba-docker-io"; "mc"; "/opt/broken/docker"] in
  length args1 < 2 /\
  run_main Sim.os args1 st =
    ([EvWrite os_Stderr
        ("Usage: saba-docker-io <container_name> [docker_path]"
           ++ newline)%string],
     Exited 1) /\
  exists usage runtimeNotFound execFailed,
    outcome Sim.os args1 st = Exited usage /\
    outcome Sim.os args2 st = Exited runtimeNotFound /\
    outcome Sim.os args3 st = Exited execFailed /\
    usage <> runtimeNotFound /\
    usage <> execFailed /\
    runtimeNotFound <> execFailed.
Proof.
  intros st args1 args2 args3.
  destruct (usage_error_and_exit_codes Sim.World Sim.os) as [Husage Hcodes].
  assert (H1 : length args1 < 2) by (simpl; lia).
  split; [exact H1 |]. split; [exact (Husage args1 st H1) |].
  apply (Hcodes args1 args2 args3 st st st
           "podman" "" "exec: podman: not found in $PATH"
           "/opt/broken/docker"
           ["/opt/broken/docker"; "attach"; "--sig-proxy=false"; "mc"]
           (proc_env st) "exec format error" H1);
    in_trace.
Defined.

(** A failed lookup leaves one message on standard error; a successful
    hand-over leaves none. *)
Lemma diagnostics_only_on_failure_witness :
  let st := Sim.boot Sim.host in
  written os_Stderr (trace Sim.os ["saba-docker-io"; "mc"] st) = [] /\
  length (written os_Stderr
            (trace Sim.os ["saba-docker-io"; "mc"; "podman"] st)) <= 1 /\
  forall f s,
    In (EvWrite f s) (trace Sim.os ["saba-docker-io"; "mc"; "podman"] st) ->
    f = os_Stderr.
Proof.
  intros st.
  destruct (diagnostics_only_on_failure Sim.World Sim.os
              ["saba-docker-io"; "mc"] st) as [_ [_ [_ Hsilent]]].
  destruct (diagnostics_only_on_failure Sim.World Sim.os
              ["saba-docker-io"; "mc"; "podman"] st) as [Hwrites [Hone _]].
  split; [| split; [exact Hone | exact Hwrites]].
  apply Hsilent. eexists _, _, _. reflexivity.
Defined.


(** * The GUI components of the extension (docker/gui/src)

    The React components are embedded as functions from their props to the
    tree of elements they return.  Props are records with the fields the
    components read, every field optional as in JavaScript; the objects
    the forms update by spreading are finite maps from keys to values.
    Inline styles that are constants and event handlers are not part of
    the tree: the handlers are functions of their own below.  JavaScript
    numbers are left abstract, together with the conversions the
    components apply to them; [MemoryGauge], whose body is floating-point
    geometry, is an element of its own that is not expanded. *)

From Stdlib Require Import DecimalString FMapList FMapFacts OrderedTypeEx.
From ExtLib Require Import Data.Monads.OptionMonad.

Module StringMap := FMapList.Make String_as_OT.
Module StringMapFacts := FMapFacts.WFacts_fun String_as_OT StringMap.

Module Gui.

(** ** The string methods [MemoryGauge] applies to its usage text

    Strings are sequences of code units below 256. *)

(** [s.split(sep)] for a one-character separator *)
Fixpoint split (sep : ascii) (s : string) : list string :=
  match s with
  | EmptyString => [EmptyString]
  | String c s' =>
      if Ascii.eqb c sep then EmptyString :: split sep s'
      else match split sep s' with
           | h :: tl => String c h :: tl
           | [] => [String c EmptyString]
           end
  end.

(** The white space and line terminators [trim] removes: tab, line feed,
    vertical tab, form feed, carriage return, space, no-break space. *)
Definition isWhiteSpace (c : ascii) : bool :=
  let n := nat_of_ascii c in
  ((9 <=? n) && (n <=? 13) || (n =? 32) || (n =? 160))%nat.

Fixpoint trimStart (s : string) : string :=
  match s with
  | EmptyString => EmptyString
  | String c s' => if isWhiteSpace c then trimStart s' else s
  end.

Fixpoint trimEnd (s : string) : string :=
  match s with
  | EmptyString => EmptyString
  | String c s' =>
      let r := trimEnd s' in
      if (isWhiteSpace c && (r =? ""))%bool%string then EmptyString
      else String c r
  end.

(** [s.trim()] *)
Definition trim (s : string) : string := trimEnd (trimStart s).

Fixpoint drop (n : nat) (s : string) : string :=
  match n, s with
  | O, _ => s
  | S _, EmptyString => EmptyString
  | S n', String _ s' => drop n' s'
  end.

(** [s.replace(pattern, '')] for a string pattern: the first occurrence of
    [pattern] is removed. *)
Fixpoint removeFirst (pattern s : string) : string :=
  if String.prefix pattern s then drop (String.length pattern) s
  else match s with
       | EmptyString => EmptyString
       | String c s' => String c (removeFirst pattern s')
       end.

(** The two labels under the gauge ([usedLabel] and [totalLabel] of
    [MemoryGauge]), computed from its [usage] prop. *)
Definition usageLabels (usage : option string) : string * string :=
  match usage with
  | None => (EmptyString, EmptyString)
  | Some u =>
      if (u =? "")%string then (EmptyString, EmptyString)
      else
        match map trim (split "/" u) with
        | [p0; p1] =>
            (removeFirst "B" (removeFirst "iB" p0),
             removeFirst "B" (removeFirst "iB" p1))
        | _ => (EmptyString, EmptyString)
        end
  end.

(** The number of occurrences of the character [c] in [s]. *)
Fixpoint occurrences (c : ascii) (s : string) : nat :=
  match s with
  | EmptyString => 0
  | String d s' => (if Ascii.eqb d c then 1 else 0) + occurrences c s'
  end.

(** [s] begins with white space. *)
Definition leadingSpace (s : string) : bool :=
  match s with
  | EmptyString => false
  | String c _ => isWhiteSpace c
  end.

Section Components.

(** JavaScript numbers and what the components do with them. *)
Context {num : Type}.
(** A number is truthy unless it is zero or NaN. *)
Variable num_truthy : num -> bool.
(** [String(x)], also the text of [x] in a template literal. *)
Variable String_of_num : num -> string.
(** [Number(s)] *)
Variable Number : string -> num.
(** [Math.round(x)] *)
Variable Math_round : num -> num.
(** [x.toFixed(1)] *)
Variable toFixed1 : num -> string.

(** The primitive values an object of the forms may hold. *)
Inductive JsVal : Type :=
| JUndefined
| JNull
| JBool (b : bool)
| JNum (n : num)
| JStr (s : string).

Definition truthy (v : JsVal) : bool :=
  match v with
  | JUndefined | JNull => false
  | JBool b => b
  | JNum n => num_truthy n
  | JStr s => negb (s =? "")%string
  end.

(** [v == null] *)
Definition nullish (v : JsVal) : bool :=
  match v with
  | JUndefined | JNull => true
  | _ => false
  end.

(** [String(v)] *)
Definition String_of (v : JsVal) : string :=
  match v with
  | JUndefined => "undefined"
  | JNull => "null"
  | JBool true => "true"
  | JBool false => "false"
  | JNum n => String_of_num n
  | JStr s => s
  end.

(** Truthiness of an optional boolean and of an optional string field. *)
Definition truthy_bool (b : option bool) : bool :=
  match b with Some true => true | _ => false end.

Definition truthy_str (s : option string) : bool :=
  match s with Some s => negb (s =? "")%string | None => false end.

(** An object used as a map; a missing key reads as [undefined]. *)
Definition Obj : Type := StringMap.t JsVal.

Definition get (o : Obj) (key : string) : JsVal :=
  match StringMap.find key o with
  | Some v => v
  | None => JUndefined
  end.

(** [{...o}] of an object that may be null or undefined. *)
Definition spread (o : option Obj) : Obj :=
  match o with
  | Some m => m
  | None => StringMap.empty JsVal
  end.

(** The elements a component returns. *)
#[local] Unset Elimination Schemes.
Inductive Node : Type :=
| Null
| Text (s : string)
| Icon (name : string)
| Fragment (children : list Node)
| Elem (tag className : string) (attrs : list (string * JsVal))
       (children : list Node)
| MemoryGauge (percent : num) (usage : option string) (size : Z)
              (compact : bool) (title : option string).
#[local] Set Elimination Schemes.

Definition className (n : Node) : string :=
  match n with
  | Elem _ c _ _ => c
  | _ => EmptyString
  end.

(** ** Props *)

Record DockerStatus : Type := {
  memory_percent : option num;
  memory_usage : option string;
  cpu_percent : option num
}.

Record ExtensionStatus : Type := { docker : option DockerStatus }.

Record ExtensionData : Type := { docker_enabled : option bool }.

Record Server : Type := {
  extension_data : option ExtensionData;
  provisioning : option bool;
  status : option string;
  extension_status : option ExtensionStatus
}.

(** The progress report of the host; [step] is the index of the step that
    is running. *)
Record Progress : Type := {
  steps : option (list string);
  step : option Z;
  done : option bool;
  error : option string;
  message : option string;
  percent : option num
}.

Record Settings : Type := { _extension_data : option Obj }.

(** The translation function [t(key, { defaultValue })]; when the host
    gives none, the default value, or the key when that is empty. *)
Definition Translate : Type := string -> string -> string.

Definition translate (t : option Translate) : Translate :=
  match t with
  | Some f => f
  | None => fun key defaultValue =>
              if (defaultValue =? "")%string then key else defaultValue
  end.

(** [server?.extension_data?.docker_enabled] as a condition *)
Definition isDocker (server : option Server) : bool :=
  truthy_bool (s <- server ;; d <- extension_data s ;; docker_enabled d).

(** ** DockerBadge (dist/docker.umd.js) *)

Definition DockerBadge (server : option Server) : Node :=
  if negb (isDocker server) then Null
  else Elem "span" "docker-badge" [("title", JStr "Docker")]
            [Icon "DOCKER_SVG"].

(** ** DockerMiniGauge *)

Definition DockerMiniGauge (server : option Server) : Node :=
  match server with
  | None => Null
  | Some s =>
      if negb (isDocker server) then Null
      else if truthy_bool (provisioning s) then Null
      else if negb (match status s with
                    | Some x => (x =? "running")%string
                    | None => false
                    end) then Null
      else
        match (es <- extension_status s ;; d <- docker es ;; memory_percent d)
        with
        | None => Null
        | Some memPct =>
            let usage :=
              es <- extension_status s ;; d <- docker es ;; memory_usage d in
            MemoryGauge memPct None 44 true
              (Some (if truthy_str usage
                     then match usage with Some u => u | None => "" end
                     else (String_of_num (Math_round memPct) ++ "%")%string))
        end
  end.

(** ** DockerStatsRow *)

Definition DockerStatsRow (server : option Server) : Node :=
  match server with
  | None => Null
  | Some s =>
      if negb (isDocker server) then Null
      else if negb (match status s with
                    | Some x => (x =? "running")%string
                    | None => false
                    end) then Null
      else
        match (es <- extension_status s ;; docker es) with
        | None => Null
        | Some dockerStats =>
            match memory_percent dockerStats with
            | None => Null
            | Some pct =>
                Elem "div" "docker-stats-row" []
                  [MemoryGauge pct (memory_usage dockerStats) 130 false None;
                   match cpu_percent dockerStats with
                   | None => Null
                   | Some cpu =>
                       Elem "div" "" []
                         [Elem "span" "" [] [Text "CPU"];
                          Elem "span" "" [] [Text (toFixed1 cpu); Text "%"]]
                   end]
            end
        end
  end.

(** ** DockerProvision *)

Definition DEFAULT_STEPS : list string := ["docker_engine"; "steamcmd"; "compose"].

(** The constants of the [steps.map] callback, which do not depend on the
    step: [provisionProgress?.step ?? -1] and
    [provisionProgress?.done && !provisionProgress?.error]. *)
Definition currentStep (provisionProgress : option Progress) : Z :=
  match (p <- provisionProgress ;; step p) with
  | Some n => n
  | None => (-1)%Z
  end.

Definition isDone (provisionProgress : option Progress) : bool :=
  truthy_bool (p <- provisionProgress ;; done p) &&
  negb (truthy_str (p <- provisionProgress ;; error p)).

(** The class of the step at index [idx]. *)
Definition stepClass (provisionProgress : option Progress) (idx : nat)
  : string :=
  if isDone provisionProgress
     || (Z.of_nat idx <? currentStep provisionProgress)%Z
  then "completed"
  else if (Z.of_nat idx =? currentStep provisionProgress)%Z then
         if truthy_str (p <- provisionProgress ;; error p)
         then "error" else "active"
  else "pending".

Definition stepElem (provisionProgress : option Progress) (t : option Translate)
           (idx : nat) (stepLabel : string) : Node :=
  let cls := stepClass provisionProgress idx in
  let label :=
    translate t ("add_server_modal.step_" ++ stepLabel)%string stepLabel in
  Elem "div" ("as-step " ++ cls)%string [("key", JStr stepLabel)]
    [Elem "div" "as-step-icon" []
       [if (cls =? "completed")%string then Icon "CHECK_ICON"
        else if (cls =? "active")%string then Icon "SPINNER_ICON"
        else if (cls =? "error")%string then Icon "ALERT_ICON"
        else Elem "span" "as-step-num" []
               [Text (NilEmpty.string_of_uint (Nat.to_uint (idx + 1)))]];
     Elem "span" "as-step-label" [] [Text label]].

(** [steps.map((stepLabel, idx) => ...)] *)
Fixpoint mapi (f : nat -> string -> Node) (idx : nat) (l : list string)
  : list Node :=
  match l with
  | [] => []
  | x :: l' => f idx x :: mapi f (S idx) l'
  end.

Definition barFill (provisionProgress : option Progress) : Node :=
  let indeterminate :=
    Elem "div"
      ("as-provision-bar-fill " ++
       (if truthy_str (p <- provisionProgress ;; error p) then "error"
        else if truthy_bool (p <- provisionProgress ;; done p) then "done"
        else "indeterminate"))%string [] [] in
  match (p <- provisionProgress ;; percent p) with
  | Some pc =>
      if negb (truthy_bool (p <- provisionProgress ;; done p)) &&
         negb (truthy_str (p <- provisionProgress ;; error p))
      then Elem "div" "as-provision-bar-fill determinate"
             [("style.width", JStr (String_of_num pc ++ "%")%string)] []
      else indeterminate
  | None => indeterminate
  end.

Definition DockerProvision (server : option Server)
           (provisionProgress : option Progress) (t : option Translate)
  : Node :=
  match server with
  | None => Null
  | Some s =>
      if negb (isDocker server) then Null
      else if negb (truthy_bool (provisioning s)) then Null
      else
        let steps :=
          match (p <- provisionProgress ;; steps p) with
          | Some l => l
          | None => DEFAULT_STEPS
          end in
        Elem "div" "sc-provision-wrap" []
          [Elem "div" "as-provision-steps" []
             (mapi (stepElem provisionProgress t) 0 steps);
           Elem "div" "as-provision-bar" [] [barFill provisionProgress];
           match (p <- provisionProgress ;; message p) with
           | Some m =>
               if (m =? "")%string then Null
               else
                 Elem "p" "as-provision-message" []
                   [Text m;
                    match (p <- provisionProgress ;; percent p) with
                    | Some pc =>
                        if negb (truthy_bool
                                   (p <- provisionProgress ;; done p)) &&
                           negb (truthy_str
                                   (p <- provisionProgress ;; error p))
                        then
                          Elem "span" "as-provision-pct" []
                            [Text " ("; Text (String_of_num pc); Text "%)"]
                        else Null
                    | None => Null
                    end]
           | None => Null
           end;
           match (p <- provisionProgress ;; error p) with
           | Some e =>
               if (e =? "")%string then Null
               else
                 Elem "div" "as-provision-error-row" []
                   [Elem "p" "as-provision-error" [] [Text e];
                    Elem "button" "as-provision-dismiss" []
                      [Text (translate t "common.dismiss" "Dismiss")]]
           | None => Null
           end]
  end.

(** ** DockerTab *)

(** [settings?._extension_data || {}] *)
Definition extDataOf (settings : option Settings) : Obj :=
  spread (s <- settings ;; _extension_data s).

Definition cpuLimit (settings : option Settings) : string :=
  let extData := extDataOf settings in
  if nullish (get extData "docker_cpu_limit") then ""
  else String_of (get extData "docker_cpu_limit").

Definition memLimit (settings : option Settings) : JsVal :=
  let extData := extDataOf settings in
  if truthy (get extData "docker_memory_limit")
  then get extData "docker_memory_limit"
  else JStr "".

(** [updateExtData(key, value)]: the two arguments it hands to
    [onSettingsChange]. *)
Definition updateExtData (settings : option Settings) (key : string)
           (value : JsVal) : string * Obj :=
  ("_extension_data", StringMap.add key value (extDataOf settings)).

(** The [onChange] handlers of the two inputs, [value] being
    [e.target.value]. *)
Definition onCpuLimitChange (settings : option Settings) (value : string)
  : string * Obj :=
  updateExtData settings "docker_cpu_limit"
    (if (value =? "")%string then JNull else JNum (Number value)).

Definition onMemoryLimitChange (settings : option Settings) (value : string)
  : string * Obj :=
  updateExtData settings "docker_memory_limit"
    (if (value =? "")%string then JNull else JStr value).

Definition DockerTab (server : option Server) (activeTab : string)
           (settings : option Settings) (t : option Translate) : Node :=
  if negb (isDocker server) then Null
  else
    Fragment
      [Elem "button"
         ("settings-tab " ++
          (if (activeTab =? "docker")%string then "active" else ""))%string []
         [Icon "DOCKER_ICON"; Text " ";
          Text (translate t "server_settings.docker_tab" "Docker")];
       if (activeTab =? "docker")%string then
         Elem "div" "settings-form" []
           [Elem "div" "settings-group" []
              [Elem "h4" "settings-group-title" []
                 [Icon "DOCKER_ICON"; Text " ";
                  Text (translate t "server_settings.docker_resources_title"
                          "Resource Limits")];
               Elem "p" "protocol-mode-description" []
                 [Text (translate t "server_settings.docker_resources_desc"
                          "Configure CPU and memory limits for this Docker container. Changes will regenerate docker-compose.yml.")];
               Elem "div" "settings-field" []
                 [Elem "label" "" []
                    [Text (translate t "server_settings.docker_cpu_limit_label"
                             "CPU Limit (cores)")];
                  Elem "input" ""
                    [("type", JStr "number"); ("min", JStr "0.25");
                     ("max", JStr "128"); ("step", JStr "0.25");
                     ("value", JStr (cpuLimit settings));
                     ("placeholder",
                      JStr (translate t
                              "server_settings.docker_cpu_limit_placeholder"
                              "e.g., 2.0 (no limit if empty)"))] [];
                  Elem "small" "field-description" []
                    [Text (translate t "server_settings.docker_cpu_limit_desc"
                             "Number of CPU cores to allocate. Leave empty for no limit.")]];
               Elem "div" "settings-field" []
                 [Elem "label" "" []
                    [Text (translate t
                             "server_settings.docker_memory_limit_label"
                             "Memory Limit")];
                  Elem "input" ""
                    [("type", JStr "text");
                     ("value", memLimit settings);
                     ("placeholder",
                      JStr (translate t
                              "server_settings.docker_memory_limit_placeholder"
                              "e.g., 4g, 512m (no limit if empty)"))] [];
                  Elem "small" "field-description" []
                    [Text (translate t
                             "server_settings.docker_memory_limit_desc"
                             "Memory limit with unit (e.g., 512m, 2g, 4g). Leave empty for no limit.")]]];
            Elem "div" "protocol-mode-section protocol-mode-info" []
              [Elem "p" "protocol-mode-hint" []
                 [Elem "span" "hint-icon" [] [Icon "LIGHTBULB_ICON"];
                  Text (translate t "server_settings.docker_restart_hint"
                          "Resource limit changes take effect after restarting the server.")]]]
       else Null].

(** ** DockerToggle *)

(** [options?.use_container || false] *)
Definition useContainer (options : option Obj) : JsVal :=
  let v := match options with
           | Some o => get o "use_container"
           | None => JUndefined
           end in
  if truthy v then v else JBool false.

(** The [onChange] handler of the checkbox, [checked] being
    [e.target.checked]: the object it hands to [onOptionsChange]. *)
Definition onUseContainerChange (options : option Obj) (checked : bool)
  : Obj :=
  StringMap.add "use_container" (JBool checked) (spread options).

Definition DockerToggle (options : option Obj) (t : option Translate) : Node :=
  Elem "div" "as-section as-docker-row" []
    [Elem "div" "as-toggle-row" []
       [Elem "label" "as-toggle-switch" []
          [Elem "input" ""
             [("type", JStr "checkbox"); ("checked", useContainer options)] [];
           Elem "span" "as-toggle-track" [] []];
        Elem "div" "as-toggle-info" []
          [Elem "span" "as-toggle-title" []
             [Icon "PACKAGE_ICON"; Text " ";
              Text (translate t "add_server_modal.docker_isolation"
                      "Docker Isolation")];
           Elem "span" "as-toggle-desc" []
             [Text (if truthy (useContainer options)
                    then translate t "add_server_modal.docker_isolation_hint_on"
                           "Server will run inside a Docker container for isolation."
                    else translate t "add_server_modal.docker_isolation_hint_off"
                           "Server will run natively on the host system.")]]]].


(** ** Properties of the components *)

(** X5: a server without [docker_enabled] gets nothing from the extension:
    badge, header gauge, statistics row, provisioning panel and settings
    tab all render nothing, whatever else the props hold. *)
Theorem hidden_without_docker (server : option Server)
        (provisionProgress : option Progress) (t : option Translate)
        (activeTab : string) (settings : option Settings) :
  isDocker server = false ->
  DockerBadge server = Null /\
  DockerMiniGauge server = Null /\
  DockerStatsRow server = Null /\
  DockerProvision server provisionProgress t = Null /\
  DockerTab server activeTab settings t = Null.
Proof.
  intros H.
  unfold DockerBadge, DockerMiniGauge, DockerStatsRow, DockerProvision,
    DockerTab.
  rewrite H. destruct server; repeat split; reflexivity.
Qed.

(** X6: the header gauge is shown exactly when the statistics row is shown
    and the provisioning panel is not: the three components never
    disagree about a server, and gauge and panel are never on screen
    together. *)
Theorem mini_gauge_iff_stats_and_not_provisioning (server : option Server)
        (provisionProgress : option Progress) (t : option Translate) :
  DockerMiniGauge server <> Null <->
  DockerStatsRow server <> Null /\
  DockerProvision server provisionProgress t = Null.
Proof.
  unfold DockerMiniGauge, DockerStatsRow, DockerProvision.
  destruct server as [s |]; [| simpl; tauto].
  destruct (isDocker (Some s)); simpl; [| tauto].
  destruct (truthy_bool (provisioning s)); simpl;
    [split; [tauto | intros [_ H]; discriminate] |].
  destruct (match status s with
            | Some x => (x =? "running")%string
            | None => false
            end); simpl; [| tauto].
  destruct (extension_status s) as [es |]; simpl; [| tauto].
  destruct (docker es) as [d |]; simpl; [| tauto].
  destruct (memory_percent d); simpl; [| tauto].
  split; [intros _ | intros _]; try split; try reflexivity; discriminate.
Qed.

(** The step elements carry the classes of [stepClass], index by index. *)
Lemma step_elements_classes (provisionProgress : option Progress)
      (t : option Translate) (labels : list string) (i : nat) :
  map className (mapi (stepElem provisionProgress t) i labels) =
  map (fun idx => ("as-step " ++ stepClass provisionProgress idx)%string)
      (seq i (length labels)).
Proof.
  revert i. induction labels as [| l labels IH]; intros i; [reflexivity |].
  cbn [mapi map length seq]. rewrite IH. reflexivity.
Qed.

(** X7: the classes of the first [n] steps, in order.  When the
    provisioning is done without error all are [completed], whatever
    [step] says.  Otherwise the steps before the current one are
    [completed], the current one is [error] or [active], the later ones
    are [pending]; a missing or negative [step] leaves all [pending] and
    one past the end makes all [completed].  So at most one step is
    active or in error and no completed step follows a pending one. *)
Theorem step_classes (provisionProgress : option Progress) (n : nat) :
  map (stepClass provisionProgress) (seq 0 n) =
  if isDone provisionProgress then repeat "completed" n
  else
    let k := currentStep provisionProgress in
    if (k <? 0)%Z then repeat "pending" n
    else if (Z.of_nat n <=? k)%Z then repeat "completed" n
    else
      repeat "completed" (Z.to_nat k)
        ++ [if truthy_str (p <- provisionProgress ;; error p)
            then "error" else "active"]
        ++ repeat "pending" (n - Z.to_nat k - 1).
Proof.
  unfold stepClass.
  destruct (isDone provisionProgress); simpl.
  - induction n as [| n IH]; [reflexivity |].
    rewrite seq_S, map_app, IH. simpl. rewrite <- repeat_cons. reflexivity.
  - set (k := currentStep provisionProgress).
    set (mid := if truthy_str (p <- provisionProgress ;; error p)
                then "error" else "active").
    induction n as [| n IH].
    + cbn [seq map repeat Z.of_nat].
      destruct (Z.ltb_spec k 0); [reflexivity |].
      destruct (Z.leb_spec 0 k); [reflexivity | lia].
    + rewrite seq_S, map_app, IH. clear IH. cbn [map Nat.add].
      destruct (Z.ltb_spec k 0) as [Hk | Hk].
      * destruct (Z.ltb_spec (Z.of_nat n) k); [lia |].
        destruct (Z.eqb_spec (Z.of_nat n) k); [lia |].
        cbn [orb]. rewrite <- repeat_cons. reflexivity.
      * destruct (Z.leb_spec (Z.of_nat n) k) as [Hn | Hn];
          destruct (Z.leb_spec (Z.of_nat (S n)) k) as [Hs | Hs]; try lia.
        -- destruct (Z.ltb_spec (Z.of_nat n) k); [| lia].
           cbn [orb]. rewrite <- repeat_cons. reflexivity.
        -- destruct (Z.ltb_spec (Z.of_nat n) k); [lia |].
           destruct (Z.eqb_spec (Z.of_nat n) k); [| lia].
           cbn [orb].
           replace (Z.to_nat k) with n by lia.
           replace (S n - n - 1) with 0 by lia. reflexivity.
        -- destruct (Z.ltb_spec (Z.of_nat n) k); [lia |].
           destruct (Z.eqb_spec (Z.of_nat n) k); [lia |].
           cbn [orb].
           replace (S n - Z.to_nat k - 1) with (S (n - Z.to_nat k - 1))
             by lia.
           rewrite <- !app_assoc. cbn [app].
           rewrite <- (repeat_cons (n - Z.to_nat k - 1) "pending").
           reflexivity.
Qed.

(** Reading a key after an update. *)
Lemma get_add_same (o : Obj) (key : string) (v : JsVal) :
  get (StringMap.add key v o) key = v.
Proof.
  unfold get. rewrite StringMapFacts.add_eq_o; reflexivity.
Qed.

Lemma get_add_other (o : Obj) (key key' : string) (v : JsVal) :
  key <> key' -> get (StringMap.add key v o) key' = get o key'.
Proof.
  intros H. unfold get. rewrite StringMapFacts.add_neq_o; auto.
Qed.

(** X8: ticking or unticking the isolation checkbox hands the host the
    options it was given with [use_container] set to the state of the
    checkbox, [true] or [false], and every other key as it was (that key
    alone when there were no options).  Rendered with these options the
    checkbox shows that state, and the toggle looks as it would with no
    other option set. *)
Theorem toggle_round_trip (options : option Obj) (checked : bool)
        (t : option Translate) :
  let options' := onUseContainerChange options checked in
  StringMap.find "use_container" options' = Some (JBool checked) /\
  get options' "use_container" = JBool checked /\
  (forall key, key <> "use_container" ->
               StringMap.find key options' =
               StringMap.find key (spread options)) /\
  useContainer (Some options') = JBool checked /\
  DockerToggle (Some options') t =
  DockerToggle (Some (onUseContainerChange None checked)) t.
Proof.
  intros options'.
  assert (H : forall o, useContainer (Some (onUseContainerChange o checked))
                        = JBool checked).
  { intros o. unfold useContainer, onUseContainerChange.
    rewrite get_add_same. destruct checked; reflexivity. }
  split.
  { unfold options', onUseContainerChange.
    apply StringMapFacts.add_eq_o. reflexivity. }
  split; [apply get_add_same |]. split.
  - intros key Hkey. unfold options', onUseContainerChange.
    apply StringMapFacts.add_neq_o. auto.
  - split; [apply H |].
    unfold DockerToggle. unfold options'. rewrite !H. reflexivity.
Qed.

(** X9: typing [value] into the memory-limit field hands the host the key
    [_extension_data] with an object in which [docker_memory_limit] is
    [value], or null when the field was emptied, and every other key is
    as before.  Once the host has stored that object the field shows
    exactly [value] and the CPU field shows what it showed. *)
Theorem memory_limit_round_trip (settings : option Settings)
        (value : string) (settings' : Settings) :
  _extension_data settings' = Some (snd (onMemoryLimitChange settings value)) ->
  fst (onMemoryLimitChange settings value) = "_extension_data" /\
  get (extDataOf (Some settings')) "docker_memory_limit" =
    (if (value =? "")%string then JNull else JStr value) /\
  memLimit (Some settings') = JStr value /\
  cpuLimit (Some settings') = cpuLimit settings /\
  (forall key, key <> "docker_memory_limit" ->
               get (extDataOf (Some settings')) key =
               get (extDataOf settings) key).
Proof.
  intros Hstored.
  assert (Hext : extDataOf (Some settings') =
                 StringMap.add "docker_memory_limit"
                   (if (value =? "")%string then JNull else JStr value)
                   (extDataOf settings)).
  { unfold extDataOf at 1. simpl. rewrite Hstored. reflexivity. }
  split; [reflexivity |].
  split; [rewrite Hext; apply get_add_same |].
  split; [| split].
  - unfold memLimit. rewrite Hext, get_add_same.
    destruct (String.eqb_spec value "") as [-> | Hne]; [reflexivity |].
    simpl. apply String.eqb_neq in Hne. rewrite Hne. reflexivity.
  - unfold cpuLimit. rewrite Hext, get_add_other; [reflexivity | discriminate].
  - intros key Hkey. rewrite Hext. apply get_add_other. auto.
Qed.

(** X10: typing [value] into the CPU-limit field stores [Number(value)]
    under [docker_cpu_limit], or null when the field was emptied.  Once
    the host has stored the object the field shows the text of the stored
    number (also for zero) or nothing after it was emptied, and the memory
    field shows what it showed. *)
Theorem cpu_limit_round_trip (settings : option Settings)
        (value : string) (settings' : Settings) :
  _extension_data settings' = Some (snd (onCpuLimitChange settings value)) ->
  get (extDataOf (Some settings')) "docker_cpu_limit" =
    (if (value =? "")%string then JNull else JNum (Number value)) /\
  cpuLimit (Some settings') =
    (if (value =? "")%string then "" else String_of_num (Number value)) /\
  memLimit (Some settings') = memLimit settings.
Proof.
  intros Hstored.
  assert (Hext : extDataOf (Some settings') =
                 StringMap.add "docker_cpu_limit"
                   (if (value =? "")%string then JNull
                    else JNum (Number value))
                   (extDataOf settings)).
  { unfold extDataOf at 1. simpl. rewrite Hstored. reflexivity. }
  split; [rewrite Hext; apply get_add_same |]. split.
  - unfold cpuLimit. rewrite Hext, get_add_same.
    destruct (value =? "")%string; reflexivity.
  - unfold memLimit. rewrite Hext, get_add_other; [reflexivity | discriminate].
Qed.

End Components.

(** ** Properties of the usage labels *)

Lemma split_length (sep : ascii) (s : string) :
  length (split sep s) = S (occurrences sep s).
Proof.
  induction s as [| c s IH]; simpl; [reflexivity |].
  destruct (Ascii.eqb c sep); simpl; [now rewrite IH |].
  destruct (split sep s); simpl in *; [discriminate | exact IH].
Qed.

Lemma split_none (sep : ascii) (s : string) :
  occurrences sep s = 0 -> split sep s = [s].
Proof.
  induction s as [| c s IH]; simpl; [reflexivity |].
  destruct (Ascii.eqb c sep); simpl; [discriminate |].
  intros H. rewrite (IH H). reflexivity.
Qed.

Lemma split_at_first (sep : ascii) (s1 s2 : string) :
  occurrences sep s1 = 0 ->
  split sep (s1 ++ String sep s2) = s1 :: split sep s2.
Proof.
  induction s1 as [| c s1 IH]; simpl.
  - intros _. rewrite Ascii.eqb_refl. reflexivity.
  - destruct (Ascii.eqb c sep); simpl; [discriminate |].
    intros H. rewrite (IH H). reflexivity.
Qed.

Lemma occurrences_append (c : ascii) (s1 s2 : string) :
  occurrences c (s1 ++ s2) = occurrences c s1 + occurrences c s2.
Proof. induction s1; simpl; [reflexivity | rewrite IHs1; lia]. Qed.

(** A text that ends in the letter B keeps its end under [trimEnd], also
    when white space follows it. *)
Lemma trimEnd_B (s : string) : trimEnd (s ++ "B") = (s ++ "B")%string.
Proof.
  induction s as [| c s IH]; simpl; [reflexivity |].
  rewrite IH. destruct (s ++ "B")%string eqn:E.
  - destruct s; discriminate.
  - rewrite andb_false_r. reflexivity.
Qed.

Lemma trimEnd_B_space (s : string) : trimEnd (s ++ "B ") = (s ++ "B")%string.
Proof.
  induction s as [| c s IH]; simpl; [reflexivity |].
  rewrite IH. destruct (s ++ "B")%string eqn:E.
  - destruct s; discriminate.
  - rewrite andb_false_r. reflexivity.
Qed.

Lemma prefix_B_absent (s : string) :
  occurrences "B" s = 0 -> String.prefix "B" (s ++ "iB") = false.
Proof.
  destruct s as [| d s]; [reflexivity |].
  cbn [occurrences append String.prefix].
  destruct (ascii_dec "B" d) as [<- | Hd]; [discriminate | reflexivity].
Qed.

(** Without the letter B in [s], the first [iB] of [s ++ "iB"] is its
    end, and [s] has no B to remove. *)
Lemma removeFirst_iB (s : string) :
  occurrences "B" s = 0 -> removeFirst "iB" (s ++ "iB") = s.
Proof.
  induction s as [| c s IH]; [reflexivity |].
  cbn [occurrences]. destruct (Ascii.eqb c "B") eqn:Ec; [discriminate |].
  intros H. simpl in H. cbn [append removeFirst String.prefix].
  rewrite (prefix_B_absent s H), (IH H).
  destruct (ascii_dec "i" c); reflexivity.
Qed.

Lemma removeFirst_absent (c : ascii) (s : string) :
  occurrences c s = 0 ->
  removeFirst (String c EmptyString) s = s.
Proof.
  induction s as [| d s IH]; [reflexivity |].
  cbn [occurrences removeFirst String.prefix].
  destruct (Ascii.eqb d c) eqn:E; [discriminate |].
  intros H. simpl in H.
  destruct (ascii_dec c d) as [-> | Hcd].
  - rewrite Ascii.eqb_refl in E. discriminate.
  - rewrite (IH H). reflexivity.
Qed.

Lemma append_assoc (s1 s2 s3 : string) :
  ((s1 ++ s2) ++ s3 = s1 ++ (s2 ++ s3))%string.
Proof. induction s1; simpl; [reflexivity | now rewrite IHs1]. Qed.

Lemma trimStart_keeps (s t : string) :
  leadingSpace s = false -> leadingSpace t = false ->
  trimStart (s ++ t) = (s ++ t)%string.
Proof.
  destruct s as [| c s]; simpl.
  - intros _. destruct t as [| d t]; simpl; [reflexivity |].
    intros ->. reflexivity.
  - intros -> _. reflexivity.
Qed.

(** X11: a usage text that does not hold exactly one slash gives no
    labels, so the gauge draws no usage line for it. *)
Theorem usage_labels_need_one_slash (u : string) :
  occurrences "/" u <> 1 ->
  usageLabels (Some u) = (EmptyString, EmptyString).
Proof.
  intros H. unfold usageLabels.
  destruct (u =? "")%string; [reflexivity |].
  assert (Hlen : length (map trim (split "/" u)) <> 2).
  { rewrite length_map, split_length. lia. }
  destruct (map trim (split "/" u)) as [| p0 [| p1 [| p2 l]]];
    try reflexivity.
  simpl in Hlen. lia.
Qed.

(** X12: for a usage text in the form docker reports it,
    [<used>iB / <total>iB], the labels are [<used>] and [<total>]: the
    binary-unit suffix is dropped from both and nothing else changes.
    This needs [<used>] and [<total>] to hold no slash and no letter B and
    not to begin with white space. *)
Theorem usage_labels_strip_units (used total : string) :
  occurrences "/" used = 0 -> occurrences "B" used = 0 ->
  leadingSpace used = false ->
  occurrences "/" total = 0 -> occurrences "B" total = 0 ->
  leadingSpace total = false ->
  usageLabels (Some (used ++ "iB / " ++ total ++ "iB")%string)
  = (used, total).
Proof.
  intros Hs1 Hb1 Hw1 Hs2 Hb2 Hw2. unfold usageLabels.
  assert (Hne : ((used ++ "iB / " ++ total ++ "iB") =? "")%string = false).
  { destruct used; reflexivity. }
  rewrite Hne. clear Hne.
  replace (used ++ "iB / " ++ total ++ "iB")%string
    with ((used ++ "iB ") ++ String "/" (" " ++ total ++ "iB"))%string
    by (rewrite append_assoc; reflexivity).
  rewrite split_at_first
    by (rewrite occurrences_append, Hs1; reflexivity).
  rewrite split_none
    by (cbn [append occurrences Ascii.eqb Bool.eqb];
        rewrite occurrences_append, Hs2; reflexivity).
  cbn [map]. unfold trim.
  assert (H1 : trimEnd (trimStart (used ++ "iB ")) = (used ++ "iB")%string).
  { rewrite trimStart_keeps by (auto; reflexivity).
    replace (used ++ "iB ")%string with ((used ++ "i") ++ "B ")%string
      by (rewrite append_assoc; reflexivity).
    rewrite trimEnd_B_space, append_assoc. reflexivity. }
  assert (H2 : trimEnd (trimStart (" " ++ total ++ "iB")) =
               (total ++ "iB")%string).
  { cbn [append trimStart]. change (isWhiteSpace " ") with true. cbn iota.
    rewrite trimStart_keeps by (auto; reflexivity).
    replace (total ++ "iB")%string with ((total ++ "i") ++ "B")%string
      by (rewrite append_assoc; reflexivity).
    rewrite trimEnd_B. reflexivity. }
  rewrite H1, H2, !removeFirst_iB by assumption.
  rewrite !removeFirst_absent by assumption. reflexivity.
Qed.

(** ** The components on integer-valued numbers *)

Definition zTruthy (z : Z) : bool := negb (z =? 0)%Z.

Definition zString (z : Z) : string := NilZero.string_of_int (Z.to_int z).

Definition zNumber (s : string) : Z :=
  match NilZero.int_of_string s with
  | Some i => Z.of_int i
  | None => 0%Z
  end.

Definition zFixed1 (z : Z) : string := (zString z ++ ".0")%string.

(** Numbers with two decimals, kept as hundredths, for the CPU field whose
    step is 0.25.  [centiNumber] reads the texts a number input delivers,
    digits with an optional fraction; [centiString] writes a number the
    way JavaScript does, without trailing zeros. *)
Definition digitsValue (s : string) : Z :=
  match NilEmpty.uint_of_string s with
  | Some u => Z.of_uint u
  | None => 0%Z
  end.

Definition centiNumber (s : string) : Z :=
  match split "." s with
  | [units] => (100 * digitsValue units)%Z
  | [units; fraction] =>
      (100 * digitsValue units
       + digitsValue (String.substring 0 2 (fraction ++ "00")))%Z
  | _ => 0%Z
  end.

Definition centiString (z : Z) : string :=
  let units := (z / 100)%Z in
  let cents := (z mod 100)%Z in
  if (cents =? 0)%Z then zString units
  else if (cents mod 10 =? 0)%Z
       then (zString units ++ "." ++ zString (cents / 10))%string
       else (zString units ++ "."
               ++ (if (cents <? 10)%Z then "0" else "") ++ zString cents)%string.

(** A docker server that is running and reports its memory, the same
    server while it is being provisioned, and a server without docker. *)
Definition runningServer : Server :=
  {| extension_data := Some {| docker_enabled := Some true |};
     provisioning := Some false;
     status := Some "running";
     extension_status :=
       Some {| docker :=
                 Some {| memory_percent := Some 42%Z;
                         memory_usage := Some "256MiB / 4GiB";
                         cpu_percent := Some 3%Z |} |} |}.

Definition provisioningServer : Server (num := Z) :=
  {| extension_data := Some {| docker_enabled := Some true |};
     provisioning := Some true;
     status := Some "stopped";
     extension_status := None |}.

Definition nativeServer : Server (num := Z) :=
  {| extension_data := Some {| docker_enabled := Some false |};
     provisioning := None;
     status := Some "running";
     extension_status := None |}.

(** The second of three steps is running, at 40 percent. *)
Definition halfWay : Progress :=
  {| steps := Some ["docker_engine"; "steamcmd"; "compose"];
     step := Some 1%Z;
     done := Some false;
     error := None;
     message := Some "Installing";
     percent := Some 40%Z |}.

Example mini_gauge_running :
  DockerMiniGauge zString (fun z => z) (Some runningServer) =
  MemoryGauge 42%Z None 44 true (Some "256MiB / 4GiB").
Proof. reflexivity. Qed.

Example provision_half_way :
  DockerProvision zString (Some provisioningServer) (Some halfWay) None =
  Elem "div" "sc-provision-wrap" []
    [Elem "div" "as-provision-steps" []
       [Elem "div" "as-step completed" [("key", JStr "docker_engine")]
          [Elem "div" "as-step-icon" [] [Icon "CHECK_ICON"];
           Elem "span" "as-step-label" [] [Text "docker_engine"]];
        Elem "div" "as-step active" [("key", JStr "steamcmd")]
          [Elem "div" "as-step-icon" [] [Icon "SPINNER_ICON"];
           Elem "span" "as-step-label" [] [Text "steamcmd"]];
        Elem "div" "as-step pending" [("key", JStr "compose")]
          [Elem "div" "as-step-icon" []
             [Elem "span" "as-step-num" [] [Text "3"]];
           Elem "span" "as-step-label" [] [Text "compose"]]];
     Elem "div" "as-provision-bar" []
       [Elem "div" "as-provision-bar-fill determinate"
          [("style.width", JStr "40%")] []];
     Elem "p" "as-provision-message" []
       [Text "Installing";
        Elem "span" "as-provision-pct" []
          [Text " ("; Text "40"; Text "%)"]];
     Null].
Proof. reflexivity. Qed.

Lemma hidden_without_docker_witness :
  isDocker (Some nativeServer) = false /\
  DockerBadge (Some nativeServer) = Null /\
  DockerMiniGauge zString (fun z => z) (Some nativeServer) = Null /\
  DockerStatsRow zFixed1 (Some nativeServer) = Null /\
  DockerProvision zString (Some nativeServer) (Some halfWay) None = Null /\
  DockerTab zTruthy zString (Some nativeServer) "docker" None None = Null.
Proof.
  assert (H : isDocker (Some nativeServer) = false) by reflexivity.
  split; [exact H |].
  exact (hidden_without_docker zTruthy zString (fun z => z) zFixed1
           (Some nativeServer) (Some halfWay) None "docker" None H).
Defined.

Lemma mini_gauge_iff_stats_and_not_provisioning_witness :
  DockerMiniGauge zString (fun z => z) (Some runningServer) <> Null /\
  DockerStatsRow zFixed1 (Some runningServer) <> Null /\
  DockerProvision zString (Some runningServer) (Some halfWay) None = Null.
Proof.
  assert (H : DockerMiniGauge zString (fun z => z) (Some runningServer)
              <> Null) by discriminate.
  split; [exact H |].
  exact (proj1 (mini_gauge_iff_stats_and_not_provisioning zString
                  (fun z => z) zFixed1 (Some runningServer) (Some halfWay)
                  None) H).
Defined.

(** Options with a game chosen and the container switched off, and the
    same with the container switched on. *)
Definition someOptions : Obj (num := Z) :=
  StringMap.add "game" (JStr "palworld")
    (StringMap.add "use_container" (JBool false) (StringMap.empty JsVal)).

Definition tickedOptions : Obj (num := Z) :=
  StringMap.add "game" (JStr "palworld")
    (StringMap.add "use_container" (JBool true) (StringMap.empty JsVal)).

(** Unticking the box stores [false] under the key, it does not drop it;
    ticking stores [true]; the game stays. *)
Lemma toggle_round_trip_witness :
  StringMap.find "use_container"
    (onUseContainerChange (Some tickedOptions) false) = Some (JBool false) /\
  StringMap.find "game"
    (onUseContainerChange (Some tickedOptions) false)
    = Some (JStr "palworld") /\
  useContainer zTruthy (Some (onUseContainerChange (Some tickedOptions) false))
    = JBool false /\
  StringMap.find "use_container"
    (onUseContainerChange (Some someOptions) true) = Some (JBool true) /\
  useContainer zTruthy (Some (onUseContainerChange (Some someOptions) true))
    = JBool true.
Proof.
  destruct (toggle_round_trip zTruthy (Some tickedOptions) false None)
    as [Hstored [_ [Hkept [Hshown _]]]].
  destruct (toggle_round_trip zTruthy (Some someOptions) true None)
    as [Hstored' [_ [_ [Hshown' _]]]].
  split; [exact Hstored |].
  split; [rewrite (Hkept "game"); [reflexivity | discriminate] |].
  split; [exact Hshown |]. split; [exact Hstored' | exact Hshown'].
Defined.

(** Settings with two cores and no memory limit. *)
Definition someSettings : Settings (num := Z) :=
  {| _extension_data :=
       Some (StringMap.add "docker_cpu_limit" (JNum 2%Z)
               (StringMap.empty JsVal)) |}.

Lemma memory_limit_round_trip_witness :
  let settings' :=
    {| _extension_data :=
         Some (snd (onMemoryLimitChange (Some someSettings) "4g")) |} in
  memLimit zTruthy (Some settings') = JStr "4g" /\
  cpuLimit zString (Some settings') = "2".
Proof.
  intros settings'.
  destruct (memory_limit_round_trip zTruthy zString (Some someSettings) "4g"
              settings' eq_refl) as [_ [_ [Hmem [Hcpu _]]]].
  split; [exact Hmem |]. rewrite Hcpu. reflexivity.
Defined.

(** A quarter of a core is stored as the number 0.25 and shown as
    [0.25]; two cores typed as [2.0] are stored as the number 2 and shown
    as [2]; the memory limit of four gigabytes stays. *)
Lemma cpu_limit_round_trip_witness :
  let settings :=
    {| _extension_data :=
         Some (StringMap.add "docker_memory_limit" (JStr "4g")
                 (StringMap.empty JsVal)) |} in
  let quarter :=
    {| _extension_data :=
         Some (snd (onCpuLimitChange centiNumber (Some settings) "0.25")) |} in
  let two :=
    {| _extension_data :=
         Some (snd (onCpuLimitChange centiNumber (Some quarter) "2.0")) |} in
  get (extDataOf (Some quarter)) "docker_cpu_limit" = JNum 25%Z /\
  cpuLimit centiString (Some quarter) = "0.25" /\
  memLimit zTruthy (Some quarter) = JStr "4g" /\
  get (extDataOf (Some two)) "docker_cpu_limit" = JNum 200%Z /\
  cpuLimit centiString (Some two) = "2" /\
  memLimit zTruthy (Some two) = JStr "4g".
Proof.
  intros settings quarter two.
  destruct (cpu_limit_round_trip zTruthy centiString centiNumber
              (Some settings) "0.25" quarter eq_refl)
    as [Hstored [Hshown Hmem]].
  destruct (cpu_limit_round_trip zTruthy centiString centiNumber
              (Some quarter) "2.0" two eq_refl)
    as [Hstored' [Hshown' Hmem']].
  split; [rewrite Hstored; reflexivity |].
  split; [rewrite Hshown; reflexivity |].
  split; [rewrite Hmem; reflexivity |].
  split; [rewrite Hstored'; reflexivity |].
  split; [rewrite Hshown'; reflexivity |].
  rewrite Hmem', Hmem. reflexivity.
Defined.

Lemma usage_labels_need_one_slash_witness :
  occurrences "/" "n/a / 4GiB" <> 1 /\
  usageLabels (Some "n/a / 4GiB") = (EmptyString, EmptyString).
Proof.
  assert (H : occurrences "/" "n/a / 4GiB" <> 1) by (simpl; lia).
  split; [exact H |].
  exact (usage_labels_need_one_slash "n/a / 4GiB" H).
Defined.

Lemma usage_labels_strip_units_witness :
  usageLabels (Some "256MiB / 4GiB") = ("256M", "4G").
Proof.
  exact (usage_labels_strip_units "256M" "4G"
           eq_refl eq_refl eq_refl eq_refl eq_refl eq_refl).
Defined.

End Gui.
